(** * Housing dashboard (lab-10.py): data loader and filter pipeline

    A shallow embedding of the pieces of [lab-10.py] that carry domain
    rules: [load_data] (lines 18-42), the three-step filter that builds
    [filtered_data] (lines 77-92), the defaults of the sidebar widgets
    (lines 51-69) and the sample table (lines 139-147).  The rendering
    calls are not embedded.

    Conventions of the embedding.
    - A pandas float64 cell is a [float64]: a rational, an infinity or NaN.
      The script only compares cells with the literals 2.5 and 4.5 and with
      Python ints; all of them are exactly representable, so the IEEE
      comparison of finite values coincides with the comparison of the
      rationals they denote.  Comparisons with NaN are false.
    - A DataFrame is its list of column labels and its ordered list of rows.
    - A boolean Series is a [list bool]; [df[mask]] keeps the rows whose
      mask entry is [true], in order.
    - The script's UTF-8 string literals are the same byte strings here.
    - The filter is given twice: as functions on frames, and as statements
      on a store of objects, where the frames have addresses.
    - numpy's generator is an interface; it is instantiated with numpy's
      own algorithm for the properties that depend on the values drawn. *)

From Stdlib Require Import List String ZArith QArith Bool Lia.
From Stdlib Require Import SpecFloat.
Import ListNotations.

Set Implicit Arguments.

(** ** Numeric cells *)

Module Float64.

Inductive float64 : Type :=
  | NaN
  | NegInf
  | Fin (q : Q)
  | PosInf.

(** [x < y] on float64 cells. *)
Definition lt (x y : float64) : bool :=
  match x, y with
  | NaN, _ | _, NaN => false
  | Fin a, Fin b => match (a ?= b)%Q with Lt => true | _ => false end
  | NegInf, NegInf => false
  | NegInf, _ => true
  | PosInf, _ => false
  | Fin _, PosInf => true
  | Fin _, NegInf => false
  end.

(** [x <= y] on float64 cells. *)
Definition le (x y : float64) : bool :=
  match x, y with
  | NaN, _ | _, NaN => false
  | Fin a, Fin b => match (a ?= b)%Q with Gt => false | _ => true end
  | NegInf, _ => true
  | PosInf, PosInf => true
  | PosInf, _ => false
  | Fin _, PosInf => true
  | Fin _, NegInf => false
  end.

Definition gt (x y : float64) : bool := lt y x.
Definition ge (x y : float64) : bool := le y x.

(** A Python int operand, converted to float64 for the comparison (exact up
    to 2^53 in absolute value, far above any price). *)
Definition of_int (n : Z) : float64 := Fin (inject_Z n).

End Float64.

Import Float64.

Declare Scope f64_scope.
Delimit Scope f64_scope with f64.
Infix "<=?" := Float64.le (at level 70, no associativity) : f64_scope.
Infix "<?" := Float64.lt (at level 70, no associativity) : f64_scope.
Infix ">=?" := Float64.ge (at level 70, no associativity) : f64_scope.
Infix ">?" := Float64.gt (at level 70, no associativity) : f64_scope.

(** The float literals of the script. *)
Definition lit_2_5 : float64 := Fin (5 # 2).
Definition lit_4_5 : float64 := Fin (9 # 2).

(** ** Records and frames *)

Record Row : Type := mkRow {
  longitude : float64;
  latitude : float64;
  housing_median_age : Z;
  total_rooms : Z;
  total_bedrooms : Z;
  population : Z;
  households : Z;
  median_income : float64;
  median_house_value : float64;
  ocean_proximity : string
}.

Record DataFrame : Type := mkFrame {
  columns : list string;
  rows : list Row
}.

(** A boolean Series, one entry per row. *)
Definition BoolSeries : Type := list bool.

(** [label in df.columns] *)
Definition has_column (label : string) (df : DataFrame) : bool :=
  existsb (String.eqb label) (columns df).

(** [df[col] <op> scalar]: the element-wise comparison of a column. *)
Definition col_cmp (cmp : float64 -> float64 -> bool)
    (col : Row -> float64) (df : DataFrame) (c : float64) : BoolSeries :=
  map (fun r => cmp (col r) c) (rows df).

(** [m1 & m2] *)
Fixpoint series_and (m1 m2 : BoolSeries) : BoolSeries :=
  match m1, m2 with
  | b1 :: t1, b2 :: t2 => (b1 && b2) :: series_and t1 t2
  | _, _ => []
  end.

(** [values.isin(allowed)] *)
Definition isin (allowed : list string) (v : string) : bool :=
  existsb (String.eqb v) allowed.

Definition col_isin (df : DataFrame) (allowed : list string) : BoolSeries :=
  map (fun r => isin allowed (ocean_proximity r)) (rows df).

(** Boolean-mask selection on the row list. *)
Fixpoint select_rows (rs : list Row) (mask : BoolSeries) : list Row :=
  match rs, mask with
  | r :: rs', b :: mask' =>
      if b then r :: select_rows rs' mask' else select_rows rs' mask'
  | _, _ => []
  end.

(** [df[mask]]: same columns, the selected rows. *)
Definition getitem_mask (df : DataFrame) (mask : BoolSeries) : DataFrame :=
  mkFrame (columns df) (select_rows (rows df) mask).

(** ** The filter pipeline (lines 77-92) *)

Open Scope string_scope.

(** The three radio options of line 74. *)
Definition opt_low : string := "Low (±2.5)".
Definition opt_medium : string := "Medium (> 2.5 & < 4.5)".
Definition opt_high : string := "High (> 4.5)".

(** Lines 77-82: the income dispatch on the full [data]. *)
Definition income_step (data : DataFrame) (income_level : string) : DataFrame :=
  if income_level =? "Low (±2.5)" then
    getitem_mask data (col_cmp Float64.le median_income data lit_2_5)
  else if income_level =? "Medium (> 2.5 & < 4.5)" then
    getitem_mask data
      (series_and (col_cmp Float64.gt median_income data lit_2_5)
                  (col_cmp Float64.lt median_income data lit_4_5))
  else
    getitem_mask data (col_cmp Float64.ge median_income data lit_4_5).

(** Lines 85-88: the price range, on the frame left by the income step. *)
Definition price_step (fd : DataFrame) (price_range : Z * Z) : DataFrame :=
  getitem_mask fd
    (series_and
       (col_cmp Float64.ge median_house_value fd (of_int (fst price_range)))
       (col_cmp Float64.le median_house_value fd (of_int (snd price_range)))).

(** Truthiness of a Python list. *)
Definition truthy (A : Type) (l : list A) : bool :=
  match l with [] => false | _ :: _ => true end.

(** Lines 91-92: the category step; the column test is on [data]. *)
Definition category_step (data fd : DataFrame) (location_types : list string)
    : DataFrame :=
  if has_column "ocean_proximity" data && truthy location_types then
    getitem_mask fd (col_isin fd location_types)
  else fd.

(** Lines 77-92, the value bound to [filtered_data] at line 95. *)
Definition filtered_data (data : DataFrame) (income_level : string)
    (price_range : Z * Z) (location_types : list string) : DataFrame :=
  let fd := income_step data income_level in
  let fd := price_step fd price_range in
  category_step data fd location_types.

(** ** Reading of the predicates used to state the properties *)

(** The order of float64 values: the usual order on finite values, with the
    infinities at both ends and NaN unrelated to everything. *)
Inductive Le : float64 -> float64 -> Prop :=
  | Le_fin (a b : Q) : (a <= b)%Q -> Le (Fin a) (Fin b)
  | Le_neginf (y : float64) : y <> NaN -> Le NegInf y
  | Le_posinf (x : float64) : x <> NaN -> Le x PosInf.

Inductive Lt : float64 -> float64 -> Prop :=
  | Lt_fin (a b : Q) : (a < b)%Q -> Lt (Fin a) (Fin b)
  | Lt_neginf_fin (b : Q) : Lt NegInf (Fin b)
  | Lt_fin_posinf (a : Q) : Lt (Fin a) PosInf
  | Lt_neginf_posinf : Lt NegInf PosInf.

Inductive Bucket : Type := Low | Medium | High.

(** The radio option that selects a bucket. *)
Definition bucket_label (b : Bucket) : string :=
  match b with
  | Low => opt_low
  | Medium => opt_medium
  | High => opt_high
  end.

(** The bucket predicates as the specification words them. *)
Definition in_bucket (b : Bucket) (income : float64) : Prop :=
  match b with
  | Low => Le income lit_2_5
  | Medium => Lt lit_2_5 income /\ Lt income lit_4_5
  | High => Le lit_4_5 income
  end.

Definition in_price_range (price_range : Z * Z) (value : float64) : Prop :=
  Le (of_int (fst price_range)) value /\ Le value (of_int (snd price_range)).

(** The category predicate is active when [data] has the column and the
    selection is not empty. *)
Definition category_active (data : DataFrame) (location_types : list string)
    : Prop :=
  In "ocean_proximity" (columns data) /\ location_types <> [].

(** Order-preserving sub-sequence. *)
Inductive Subseq (A : Type) : list A -> list A -> Prop :=
  | Subseq_nil : Subseq [] []
  | Subseq_keep (x : A) (l1 l2 : list A) :
      Subseq l1 l2 -> Subseq (x :: l1) (x :: l2)
  | Subseq_drop (x : A) (l1 l2 : list A) :
      Subseq l1 l2 -> Subseq l1 (x :: l2).

(** One entry of the income mask of lines 77-82, as a function of the
    selected option and the cell. *)
Definition income_test (income_level : string) (x : float64) : bool :=
  if income_level =? "Low (±2.5)" then (x <=? lit_2_5)%f64
  else if income_level =? "Medium (> 2.5 & < 4.5)" then
    (x >? lit_2_5)%f64 && (x <? lit_4_5)%f64
  else (x >=? lit_4_5)%f64.

(** One entry of the price mask of lines 85-88. *)
Definition price_test (price_range : Z * Z) (x : float64) : bool :=
  (x >=? of_int (fst price_range))%f64 && (x <=? of_int (snd price_range))%f64.

(** One entry of the mask the category step of lines 91-92 applies: the
    membership test when the step is active, [true] when it is skipped. *)
Definition category_test (data : DataFrame) (location_types : list string)
    (r : Row) : bool :=
  if has_column "ocean_proximity" data && truthy location_types
  then isin location_types (ocean_proximity r)
  else true.

(** Exactly one of three booleans. *)
Definition exactly_one (a b c : bool) : bool :=
  (a && negb b && negb c) || (negb a && b && negb c) || (negb a && negb b && c).

(** ** The data loader (lines 18-42)

    The body of [load_data] is modelled; the [st.cache_data] decorator of
    line 18, which replays a stored result on later calls, is not.  The
    properties below are about one execution of the body. *)

(** Python exceptions that can reach [load_data]. *)
Inductive exn : Type :=
  | FileNotFoundError
  | ValueError
  | OtherError (name : string).

(** numpy's global generator, as the interface the script calls.  The result
    of [np.random.seed(k)] depends on [k] alone; every draw consumes the
    state and returns the next one.  The bounds of [uniform] are the finite
    float literals of the call, given by their exact values. *)
Class NumpyRandom : Type := {
  rng_state : Type;
  seed_state : Z -> rng_state;
  uniform : Q -> Q -> nat -> rng_state -> list float64 * rng_state;
  randint : Z -> Z -> nat -> rng_state -> list Z * rng_state;
  choice : list string -> nat -> rng_state -> list string * rng_state
}.

(** What the loader needs of the generator: for valid arguments every call
    returns [size] samples. *)
Class NumpyRandomSpec (NR : NumpyRandom) : Prop := {
  uniform_size : forall lo hi n s, List.length (fst (uniform lo hi n s)) = n;
  randint_size : forall lo hi n s, (lo < hi)%Z ->
    List.length (fst (randint lo hi n s)) = n;
  choice_size : forall opts n s, opts <> [] ->
    List.length (fst (choice opts n s)) = n
}.

(** The float literals of lines 30-31 and 37.  -124.3 and -114.3 are not
    binary fractions; the values are the doubles the literals denote. *)
Definition lit_m124_3 : Q := (-8746834901283635 # 70368744177664).
Definition lit_m114_3 : Q := (-8043147459506995 # 70368744177664).
Definition lit_32_5 : Q := (65 # 2).
Definition lit_42_0 : Q := (42 # 1).
Definition lit_0_5 : Q := (1 # 2).
Definition lit_15_0 : Q := (15 # 1).

Definition proximity_options : list string :=
  ["INLAND"; "NEAR BAY"; "NEAR OCEAN"; "ISLAND"].

Definition synthetic_columns : list string :=
  ["longitude"; "latitude"; "housing_median_age"; "total_rooms";
   "total_bedrooms"; "population"; "households"; "median_income";
   "median_house_value"; "ocean_proximity"].

Definition all_lengths (n : nat) (ls : list nat) : bool :=
  forallb (Nat.eqb n) ls.

(** [pd.DataFrame({...})] on the ten arrays of lines 30-39: row [i] collects
    the [i]-th entry of every array; arrays of different lengths are a
    ValueError.  The integer array of [median_house_value] becomes a numeric
    column. *)
Definition frame_of_columns
    (lon lat : list float64) (age rooms bedrooms pop hh : list Z)
    (income : list float64) (value : list Z) (proximity : list string)
    : exn + DataFrame :=
  let n := List.length lon in
  if all_lengths n
       [List.length lat; List.length age; List.length rooms;
        List.length bedrooms; List.length pop; List.length hh;
        List.length income; List.length value; List.length proximity]
  then
    inr (mkFrame synthetic_columns
           (map (fun i =>
                   mkRow (nth i lon NaN) (nth i lat NaN) (nth i age 0%Z)
                         (nth i rooms 0%Z) (nth i bedrooms 0%Z)
                         (nth i pop 0%Z) (nth i hh 0%Z) (nth i income NaN)
                         (of_int (nth i value 0%Z)) (nth i proximity ""))
                (seq 0 n)))
  else inl ValueError.

Section Loader.

Context {NR : NumpyRandom}.

(** What the script can observe and change: the outcome of
    [pd.read_csv(path)] for every path, numpy's global generator state and
    the warnings shown on the page so far (oldest first). *)
Record World : Type := mkWorld {
  read_csv : string -> exn + DataFrame;
  np_state : rng_state;
  warnings : list string
}.

(** Computations that may raise, over the world. *)
Definition M (A : Type) : Type := World -> (exn + A) * World.

Definition ret (A : Type) (a : A) : M A := fun w => (inr a, w).

Definition bind (A B : Type) (m : M A) (k : A -> M B) : M B :=
  fun w =>
    match m w with
    | (inr a, w') => k a w'
    | (inl e, w') => (inl e, w')
    end.

(** [try: body  except FileNotFoundError: handler]; every other exception
    propagates. *)
Definition try_except_FileNotFoundError (A : Type) (body handler : M A)
    : M A :=
  fun w =>
    match body w with
    | (inl FileNotFoundError, w') => handler w'
    | r => r
    end.

Definition pd_read_csv (path : string) : M DataFrame :=
  fun w => (read_csv w path, w).

Definition st_warning (msg : string) : M unit :=
  fun w => (inr tt, mkWorld (read_csv w) (np_state w) (warnings w ++ [msg])).

Definition np_random_seed (k : Z) : M unit :=
  fun w => (inr tt, mkWorld (read_csv w) (seed_state k) (warnings w)).

(** A draw from the global generator. *)
Definition draw (A : Type) (f : rng_state -> A * rng_state) : M A :=
  fun w =>
    let (a, s) := f (np_state w) in
    (inr a, mkWorld (read_csv w) s (warnings w)).

Definition lift_result (A : Type) (r : exn + A) : M A := fun w => (r, w).

End Loader.

Notation "x <- m ;; k" := (bind m (fun x => k))
  (at level 61, m at next level, right associativity).
Notation "m ;;; k" := (bind m (fun _ => k))
  (at level 61, right associativity).

Section LoadData.

Context {NR : NumpyRandom}.

(** The [except] branch of lines 25-40. *)
Definition synthetic_data : M DataFrame :=
  st_warning "housing.csv not found. Using sample data." ;;;
  np_random_seed 42 ;;;
  let n_samples := 1000%nat in
  lon <- draw (uniform lit_m124_3 lit_m114_3 n_samples) ;;
  lat <- draw (uniform lit_32_5 lit_42_0 n_samples) ;;
  age <- draw (randint 1 52 n_samples) ;;
  rooms <- draw (randint 2 40000 n_samples) ;;
  bedrooms <- draw (randint 1 6500 n_samples) ;;
  pop <- draw (randint 3 15000 n_samples) ;;
  hh <- draw (randint 1 5000 n_samples) ;;
  income <- draw (uniform lit_0_5 lit_15_0 n_samples) ;;
  value <- draw (randint 15000 500000 n_samples) ;;
  proximity <- draw (choice proximity_options n_samples) ;;
  lift_result
    (frame_of_columns lon lat age rooms bedrooms pop hh income value proximity).

(** Lines 19-42. *)
Definition load_data : M DataFrame :=
  data <- try_except_FileNotFoundError
            (pd_read_csv "housing.csv")
            synthetic_data ;;
  ret data.

End LoadData.

(** ** Statements about single rows *)

(** A row passes the category criterion: whenever the criterion is active,
    its label is one of the selected ones. *)
Definition satisfies_category (data : DataFrame)
    (location_types : list string) (r : Row) : Prop :=
  category_active data location_types -> In (ocean_proximity r) location_types.

(** The declared bounds of the synthetic columns (lines 30-39). *)
Record synthetic_row_ok (r : Row) : Prop := {
  ok_longitude :
    Le (Fin lit_m124_3) (longitude r) /\ Lt (longitude r) (Fin lit_m114_3);
  ok_latitude :
    Le (Fin lit_32_5) (latitude r) /\ Lt (latitude r) (Fin lit_42_0);
  ok_housing_median_age : (1 <= housing_median_age r < 52)%Z;
  ok_total_rooms : (2 <= total_rooms r < 40000)%Z;
  ok_total_bedrooms : (1 <= total_bedrooms r < 6500)%Z;
  ok_population : (3 <= population r < 15000)%Z;
  ok_households : (1 <= households r < 5000)%Z;
  ok_median_income :
    Le (Fin lit_0_5) (median_income r) /\ Lt (median_income r) (Fin lit_15_0);
  ok_median_house_value :
    exists z : Z, median_house_value r = of_int z /\ (15000 <= z < 500000)%Z;
  ok_ocean_proximity : In (ocean_proximity r) proximity_options
}.

(** The rows of the worked example: the three named cells as given, the
    other cells zero. *)
Definition example_row (income : Q) (value : Z) (proximity : string) : Row :=
  mkRow (Fin 0) (Fin 0) 0 0 0 0 0 (Fin income) (of_int value) proximity.

Definition example_data : DataFrame :=
  mkFrame ["median_income"; "median_house_value"; "ocean_proximity"]
    [example_row 2 100000 "INLAND";
     example_row 3 200000 "NEAR BAY";
     example_row 5 300000 "INLAND"].


(** ** A small reference generator

    A linear congruential generator behind the [NumpyRandom] interface.  It
    is not numpy's Mersenne Twister; it shows that the contract above can be
    met and lets the loader run. *)

Module Lcg.

Definition next (s : Z) : Z := ((1103515245 * s + 12345) mod 2147483648)%Z.

Fixpoint draws (A : Type) (f : Z -> A) (n : nat) (s : Z) : list A * Z :=
  match n with
  | O => ([], s)
  | S n' =>
      let s' := next s in
      let (l, s'') := draws f n' s' in
      (f s' :: l, s'')
  end.

(** The fraction [s / 2^31] of a state. *)
Definition unit_fraction (s : Z) : Q := Qmake s 2147483648.

Definition uniform (lo hi : Q) : nat -> Z -> list float64 * Z :=
  draws (fun s => Fin (lo + (hi - lo) * unit_fraction s)%Q).

Definition randint (lo hi : Z) : nat -> Z -> list Z * Z :=
  draws (fun s => (lo + s mod (hi - lo))%Z).

Definition choice (opts : list string) : nat -> Z -> list string * Z :=
  draws (fun s => nth (Z.to_nat (s mod Z.of_nat (List.length opts))) opts "").

End Lcg.

#[local] Instance lcg_random : NumpyRandom := {|
  rng_state := Z;
  seed_state := fun k => k;
  uniform := Lcg.uniform;
  randint := Lcg.randint;
  choice := Lcg.choice
|}.

(** Two worlds over the reference generator: one without [housing.csv], one
    in which reading it yields the example dataset. *)
Definition missing_world : @World lcg_random :=
  @mkWorld lcg_random (fun _ => inl FileNotFoundError) 7%Z [].

Definition present_world : @World lcg_random :=
  @mkWorld lcg_random
    (fun path =>
       if path =? "housing.csv" then inr example_data
       else inl FileNotFoundError)
    7%Z [].

(** ** numpy's legacy generator

    [np.random.seed], [uniform], [randint] and [choice] of the script are
    methods of numpy's global [RandomState], whose stream numpy keeps fixed:
    the Mersenne Twister MT19937, seeded from a 32-bit integer, with the
    sampling routines of numpy's [mt19937.c], [distributions.c] and
    [mtrand.pyx].  Doubles are computed with the binary64 operations of the
    standard library's [SpecFloat]: round to nearest even, each operation
    rounded on its own, as the C code runs where the compiler does not fuse
    a multiplication with the addition that follows it. *)

Module Binary64.

Definition prec : Z := 53.
Definition emax : Z := 1024.

Definition add : spec_float -> spec_float -> spec_float := SFadd prec emax.
Definition sub : spec_float -> spec_float -> spec_float := SFsub prec emax.
Definition mul : spec_float -> spec_float -> spec_float := SFmul prec emax.
Definition div : spec_float -> spec_float -> spec_float := SFdiv prec emax.

(** The double nearest to an integer, and to a rational (exact when the
    rational is a double, as the literals of the script are). *)
Definition of_Z (n : Z) : spec_float := binary_normalize prec emax n 0 false.

Definition of_Q (q : Q) : spec_float :=
  div (of_Z (Qnum q)) (of_Z (Zpos (Qden q))).

(** The value [m * 2^e]. *)
Definition mantissa_exponent (m : positive) (e : Z) : Q :=
  match e with
  | Zneg k => Qmake (Zpos m) (Pos.shiftl 1 (Npos k))
  | _ => inject_Z (Zpos m * 2 ^ e)
  end.

(** A double as a cell; the sign of a zero is dropped. *)
Definition to_cell (x : spec_float) : float64 :=
  match x with
  | S754_zero _ => Fin 0
  | S754_infinity false => PosInf
  | S754_infinity true => NegInf
  | S754_nan => NaN
  | S754_finite false m e => Fin (mantissa_exponent m e)
  | S754_finite true m e => Fin (- mantissa_exponent m e)
  end.

End Binary64.

Module Mt19937.

Definition N : nat := 624.
Definition M : nat := 397.
Definition MATRIX_A : Z := 0x9908b0df.
Definition UPPER_MASK : Z := 0x80000000.
Definition LOWER_MASK : Z := 0x7fffffff.

Definition u32 (x : Z) : Z := Z.land x 0xffffffff.

(** The generator state.  numpy's rejection loops have no bound; the model
    gives each sample [attempts] tries and records in [starved] that a loop
    used them up. *)
Record state : Type := mkState {
  key : list Z;
  pos : nat;
  starved : bool
}.

Definition attempts : nat := 1000.

(** [mt19937_seed]: [key[pos] = seed], then
    [seed = 1812433253 * (seed ^ (seed >> 30)) + pos + 1], on 32 bits. *)
Fixpoint seed_loop (n : nat) (p : Z) (s : Z) : list Z :=
  match n with
  | O => []
  | S n' =>
      s :: seed_loop n' (p + 1)%Z
             (u32 (1812433253 * Z.lxor s (Z.shiftr s 30) + p + 1))
  end.

Definition seed (s : Z) : state := mkState (seed_loop N 0 (u32 s)) N false.

Fixpoint set_nth (i : nat) (v : Z) (l : list Z) : list Z :=
  match l, i with
  | [], _ => []
  | _ :: t, O => v :: t
  | x :: t, S i' => x :: set_nth i' v t
  end.

(** One step of [mt19937_gen]:
    [y = (key[i] & UPPER_MASK) | (key[next] & LOWER_MASK)],
    [key[i] = key[far] ^ (y >> 1) ^ (-(y & 1) & MATRIX_A)]. *)
Definition twist_at (k : list Z) (i next far : nat) : list Z :=
  let y := Z.lor (Z.land (nth i k 0%Z) UPPER_MASK)
                 (Z.land (nth next k 0%Z) LOWER_MASK) in
  set_nth i
    (Z.lxor (Z.lxor (nth far k 0%Z) (Z.shiftr y 1))
            (if Z.odd y then MATRIX_A else 0%Z))
    k.

(** [mt19937_gen]: the two loops over [0, N-M) and [N-M, N-1), then the
    last word; the key is updated in place, so later steps read words that
    earlier steps wrote. *)
Definition gen (k : list Z) : list Z :=
  let k := fold_left (fun k i => twist_at k i (i + 1) (i + M))
                     (seq 0 (N - M)) k in
  let k := fold_left (fun k i => twist_at k i (i + 1) (i + M - N))
                     (seq (N - M) (M - 1)) k in
  twist_at k (N - 1) 0 (M - 1).

(** [mt19937_next]: refill when the key is used up, then temper. *)
Definition next_uint32 (s : state) : Z * state :=
  let k := if Nat.eqb (pos s) N then gen (key s) else key s in
  let p := if Nat.eqb (pos s) N then O else pos s in
  let y := nth p k 0%Z in
  let y := Z.lxor y (Z.shiftr y 11) in
  let y := Z.lxor y (Z.land (Z.shiftl y 7) 0x9d2c5680) in
  let y := Z.lxor y (Z.land (Z.shiftl y 15) 0xefc60000) in
  let y := Z.lxor y (Z.shiftr y 18) in
  (y, mkState k (S p) (starved s)).

(** [mt19937_next64]: the first word is the upper half. *)
Definition next_uint64 (s : state) : Z * state :=
  let (hi, s) := next_uint32 s in
  let (lo, s) := next_uint32 s in
  (Z.lor (Z.shiftl hi 32) lo, s).

(** [mt19937_next_double]:
    [a = next >> 5], [b = next >> 6],
    [(a * 67108864.0 + b) / 9007199254740992.0]. *)
Definition next_double (s : state) : spec_float * state :=
  let (a, s) := next_uint32 s in
  let (b, s) := next_uint32 s in
  (Binary64.div
     (Binary64.add
        (Binary64.mul (Binary64.of_Z (Z.shiftr a 5))
                      (Binary64.of_Z 67108864))
        (Binary64.of_Z (Z.shiftr b 6)))
     (Binary64.of_Z 9007199254740992),
   s).

(** [n] successive samples. *)
Fixpoint samples (A : Type) (f : state -> A * state) (n : nat) (s : state)
    : list A * state :=
  match n with
  | O => ([], s)
  | S n' =>
      let (x, s) := f s in
      let (l, s) := samples f n' s in
      (x :: l, s)
  end.

(** [uniform(low, high, size)]: [low + (high - low) * next_double], the
    difference computed once.  numpy raises OverflowError when the
    difference is not finite, which the bounds of the script do not
    cause. *)
Definition uniform (low high : Q) (size : nat) (s : state)
    : list float64 * state :=
  let flow := Binary64.of_Q low in
  let fscale := Binary64.sub (Binary64.of_Q high) flow in
  samples
    (fun s =>
       let (u, s) := next_double s in
       (Binary64.to_cell (Binary64.add flow (Binary64.mul fscale u)), s))
    size s.

(** [gen_mask]: the smallest [2^k - 1] that is at least [rng]. *)
Definition gen_mask (rng : Z) : Z :=
  let m := rng in
  let m := Z.lor m (Z.shiftr m 1) in
  let m := Z.lor m (Z.shiftr m 2) in
  let m := Z.lor m (Z.shiftr m 4) in
  let m := Z.lor m (Z.shiftr m 8) in
  let m := Z.lor m (Z.shiftr m 16) in
  Z.lor m (Z.shiftr m 32).

(** The masked rejection loop
    [while ((val = next & mask) > rng);]. *)
Fixpoint bounded_masked (next : state -> Z * state) (fuel : nat)
    (rng mask : Z) (s : state) : Z * state :=
  match fuel with
  | O => (0%Z, mkState (key s) (pos s) true)
  | S fuel' =>
      let (v, s) := next s in
      let v := Z.land v mask in
      if (v <=? rng)%Z then (v, s) else bounded_masked next fuel' rng mask s
  end.

(** [random_bounded_uint64_fill] with [use_masked]: one value in
    [[0, rng]]. *)
Definition bounded_uint64 (rng : Z) (s : state) : Z * state :=
  if (rng =? 0)%Z then (0%Z, s)
  else if (rng <=? 0xFFFFFFFF)%Z then
    if (rng =? 0xFFFFFFFF)%Z then next_uint32 s
    else bounded_masked next_uint32 attempts rng (gen_mask rng) s
  else if (rng =? 0xFFFFFFFFFFFFFFFF)%Z then next_uint64 s
  else bounded_masked next_uint64 attempts rng (gen_mask rng) s.

(** [randint(low, high, size)] for [low < high]: [low] plus a value in
    [[0, high - 1 - low]].  numpy raises ValueError for [low >= high]; the
    script's arguments are constants with [low < high], and the model
    returns no sample there. *)
Definition randint (low high : Z) (size : nat) (s : state)
    : list Z * state :=
  if (low <? high)%Z then
    samples
      (fun s =>
         let (v, s) := bounded_uint64 (high - 1 - low) s in
         ((low + v)%Z, s))
      size s
  else ([], s).

(** [choice(a, size)] with replacement and no weights:
    [a[randint(0, len(a), size)]].  numpy raises ValueError for an empty
    [a]; the model returns no sample there. *)
Definition choice (a : list string) (size : nat) (s : state)
    : list string * state :=
  match a with
  | [] => ([], s)
  | _ :: _ =>
      let (idx, s) := randint 0 (Z.of_nat (List.length a)) size s in
      (map (fun i => nth (Z.to_nat i) a "") idx, s)
  end.

End Mt19937.

#[local] Instance numpy_mt19937 : NumpyRandom := {|
  rng_state := Mt19937.state;
  seed_state := Mt19937.seed;
  uniform := Mt19937.uniform;
  randint := Mt19937.randint;
  choice := Mt19937.choice
|}.

(** A world of the session, for running the loader on numpy's generator. *)
Definition numpy_world : @World numpy_mt19937 :=
  @mkWorld numpy_mt19937 (fun _ => inl FileNotFoundError)
    (Mt19937.seed 0) [].

(** ** The sidebar defaults (lines 51-69) *)

(** [isna] on a cell. *)
Definition isna (x : float64) : bool :=
  match x with NaN => true | _ => false end.

(** [Series.min()]: NaN cells are skipped; the result is NaN when no other
    cell is left. *)
Fixpoint series_min (l : list float64) : float64 :=
  match l with
  | [] => NaN
  | x :: t =>
      let m := series_min t in
      if isna x then m
      else if isna m then x
      else if (x <=? m)%f64 then x else m
  end.

(** [Series.max()], likewise. *)
Fixpoint series_max (l : list float64) : float64 :=
  match l with
  | [] => NaN
  | x :: t =>
      let m := series_max t in
      if isna x then m
      else if isna m then x
      else if (x >=? m)%f64 then x else m
  end.

(** Python's [int(x)] on a float: truncation toward zero; NaN is a
    ValueError and an infinity an OverflowError. *)
Definition py_int (x : float64) : exn + Z :=
  match x with
  | NaN => inl ValueError
  | NegInf | PosInf => inl (OtherError "OverflowError")
  | Fin q => inr (Z.quot (Qnum q) (Zpos (Qden q)))
  end.

(** [JSNumber.validate_int_bounds]: Streamlit accepts an integer bound only
    within JavaScript's safe range, [-(2^53 - 1) .. 2^53 - 1]. *)
Definition js_safe_int (n : Z) : bool :=
  (- (2 ^ 53 - 1) <=? n)%Z && (n <=? 2 ^ 53 - 1)%Z.

Definition StreamlitAPIException : exn := OtherError "StreamlitAPIException".

(** [st.sidebar.slider] as lines 51-57 call it, on the first run of a
    session: integer bounds, the default [value = (min_value, max_value)],
    step 10000.  Streamlit raises StreamlitAPIException for a bound outside
    the safe range and when [min_value] is not below [max_value]; otherwise
    the widget returns its default. *)
Definition price_slider (min_value max_value : Z) : exn + (Z * Z) :=
  if js_safe_int min_value && js_safe_int max_value then
    if (min_value <? max_value)%Z then inr (min_value, max_value)
    else inl StreamlitAPIException
  else inl StreamlitAPIException.

(** Lines 51-57: the value of [price_range] on the first run; [min_value]
    is evaluated before [max_value], both before the call. *)
Definition default_price_range (data : DataFrame) : exn + (Z * Z) :=
  match py_int (series_min (map median_house_value (rows data))) with
  | inl e => inl e
  | inr lo =>
      match py_int (series_max (map median_house_value (rows data))) with
      | inl e => inl e
      | inr hi => price_slider lo hi
      end
  end.

(** [Series.unique().tolist()]: the distinct labels in order of first
    appearance; [seen] holds the labels met so far. *)
Fixpoint unique_from (seen l : list string) : list string :=
  match l with
  | [] => []
  | x :: t =>
      if isin seen x then unique_from seen t
      else x :: unique_from (x :: seen) t
  end.

Definition unique (l : list string) : list string := unique_from [] l.

(** Lines 60-63. *)
Definition location_options (data : DataFrame) : list string :=
  if has_column "ocean_proximity" data
  then unique (map ocean_proximity (rows data))
  else ["Coastal"; "Inland"; "Urban"; "Rural"].

(** ** The sample table (lines 139-147) *)

(** Lines 140-145; [append] and [extend] grow the list at its end. *)
Definition display_columns (fd : DataFrame) : list string :=
  let dc := ["median_income"; "median_house_value"] in
  let dc :=
    if has_column "housing_median_age" fd
    then (dc ++ ["housing_median_age"])%list else dc in
  let dc :=
    if has_column "ocean_proximity" fd
    then (dc ++ ["ocean_proximity"])%list else dc in
  (dc ++ ["longitude"; "latitude"])%list.

(** [df.head(n)] *)
Definition head (n : nat) (df : DataFrame) : DataFrame :=
  mkFrame (columns df) (firstn n (rows df)).

(** [df[labels]] with a list of labels: the frame restricted to these
    columns, a KeyError when one of them is not a column. *)
Definition getitem_columns (df : DataFrame) (labels : list string)
    : exn + DataFrame :=
  if forallb (fun l => has_column l df) labels
  then inr (mkFrame labels (rows df))
  else inl (OtherError "KeyError").

(** Line 147: the frame handed to [st.dataframe]. *)
Definition sample_table (fd : DataFrame) : exn + DataFrame :=
  getitem_columns (head 10 fd) (display_columns fd).

(** A frame whose only priced row is worth 100000.5. *)
Definition fractional_data : DataFrame :=
  mkFrame ["median_income"; "median_house_value"]
    [mkRow (Fin 0) (Fin 0) 0 0 0 0 0 (Fin 3) (Fin (200001 # 2)) "INLAND"].

(** A frame with a whole and a fractional price. *)
Definition fractional_prices_data : DataFrame :=
  mkFrame ["median_income"; "median_house_value"]
    [mkRow (Fin 0) (Fin 0) 0 0 0 0 0 (Fin 3) (of_int 100000) "INLAND";
     mkRow (Fin 0) (Fin 0) 0 0 0 0 0 (Fin 3) (Fin (400001 # 2)) "INLAND"].

(** ** Checks that run on the synthetic frame *)

Definition in_interval_b (lo hi : Q) (x : float64) : bool :=
  (Fin lo <=? x)%f64 && (x <? Fin hi)%f64.

Definition in_int_range_b (lo hi z : Z) : bool :=
  (lo <=? z)%Z && (z <? hi)%Z.

(** The bounds of [synthetic_row_ok], as a test. *)
Definition synthetic_row_ok_b (r : Row) : bool :=
  in_interval_b lit_m124_3 lit_m114_3 (longitude r) &&
  in_interval_b lit_32_5 lit_42_0 (latitude r) &&
  in_int_range_b 1 52 (housing_median_age r) &&
  in_int_range_b 2 40000 (total_rooms r) &&
  in_int_range_b 1 6500 (total_bedrooms r) &&
  in_int_range_b 3 15000 (population r) &&
  in_int_range_b 1 5000 (households r) &&
  in_interval_b lit_0_5 lit_15_0 (median_income r) &&
  match median_house_value r with
  | Fin (Qmake z 1) => in_int_range_b 15000 500000 z
  | _ => false
  end &&
  isin proximity_options (ocean_proximity r).

Fixpoint list_eqb (l1 l2 : list string) : bool :=
  match l1, l2 with
  | [], [] => true
  | x :: t1, y :: t2 => (x =? y) && list_eqb t1 t2
  | _, _ => false
  end.

(** The outcome of a run of the fallback: a frame of 1000 rows with the
    synthetic columns, every row within the bounds, and no rejection loop
    out of attempts. *)
Definition seed42_check (r : (exn + DataFrame) * @World numpy_mt19937)
    : bool :=
  match fst r with
  | inr df =>
      list_eqb (columns df) synthetic_columns &&
      Nat.eqb (List.length (rows df)) 1000 &&
      forallb synthetic_row_ok_b (rows df) &&
      negb (Mt19937.starved (np_state (snd r)))
  | inl _ => false
  end.

(** The sidebar defaults on the frame of a run of the fallback. *)
Definition seed42_defaults_check
    (r : (exn + DataFrame) * @World numpy_mt19937) : bool :=
  match fst r with
  | inr df =>
      match default_price_range df with
      | inr (lo, hi) =>
          (lo =? 15370)%Z && (hi =? 499710)%Z &&
          forallb (fun x => price_test (lo, hi) (median_house_value x))
                  (rows df)
      | inl _ => false
      end &&
      list_eqb (location_options df)
               ["INLAND"; "ISLAND"; "NEAR BAY"; "NEAR OCEAN"]
  | inl _ => false
  end.

(** ** The filter as statements over the session's objects (lines 77-92)

    Frames are objects: the store maps addresses to frames and binds the
    names of the script to addresses or values.  A statement is a function
    on stores, so a statement that overwrote a live object or rebound
    [data] can be written here as well as one that does not.  pandas'
    [df[mask]] builds a new frame; an assignment rebinds a name. *)

Definition addr : Type := nat.

Record Store : Type := mkStore {
  objects : addr -> DataFrame;
  next_free : addr;
  n_data : addr;
  n_price_range : Z * Z;
  n_location_types : list string;
  n_income_level : string;
  n_filtered_data : option addr
}.

Definition KeyError : exn := OtherError "KeyError".
Definition NameError : exn := OtherError "NameError".

(** A new object holding [df]; the older objects keep their addresses. *)
Definition alloc (s : Store) (df : DataFrame) : addr * Store :=
  (next_free s,
   mkStore (fun a => if Nat.eqb a (next_free s) then df else objects s a)
           (S (next_free s)) (n_data s) (n_price_range s)
           (n_location_types s) (n_income_level s) (n_filtered_data s)).

(** [filtered_data = <object at a>] *)
Definition assign_filtered_data (s : Store) (a : addr) : Store :=
  mkStore (objects s) (next_free s) (n_data s) (n_price_range s)
          (n_location_types s) (n_income_level s) (Some a).

(** Lines 77-82: [data['median_income']] is a KeyError without the column;
    each branch binds [filtered_data] to the new frame [data[mask]]. *)
Definition stmt_income (s : Store) : exn + Store :=
  let data := objects s (n_data s) in
  if has_column "median_income" data then
    let (a, s') := alloc s (income_step data (n_income_level s)) in
    inr (assign_filtered_data s' a)
  else inl KeyError.

(** Lines 85-88: reads the object bound to [filtered_data] (a NameError
    while the name is unbound) and rebinds the name to a new frame. *)
Definition stmt_price (s : Store) : exn + Store :=
  match n_filtered_data s with
  | None => inl NameError
  | Some a =>
      let fd := objects s a in
      if has_column "median_house_value" fd then
        let (a', s') := alloc s (price_step fd (n_price_range s)) in
        inr (assign_filtered_data s' a')
      else inl KeyError
  end.

(** Lines 91-92: when the test of line 91 fails nothing is built and
    [filtered_data] stays bound to the same object. *)
Definition stmt_category (s : Store) : exn + Store :=
  let data := objects s (n_data s) in
  if has_column "ocean_proximity" data && truthy (n_location_types s) then
    match n_filtered_data s with
    | None => inl NameError
    | Some a =>
        let fd := objects s a in
        if has_column "ocean_proximity" fd then
          let (a', s') :=
            alloc s (getitem_mask fd (col_isin fd (n_location_types s))) in
          inr (assign_filtered_data s' a')
        else inl KeyError
    end
  else inr s.

Definition seq_stmt (s1 s2 : Store -> exn + Store) (s : Store)
    : exn + Store :=
  match s1 s with inr s' => s2 s' | inl e => inl e end.

Definition run_filter : Store -> exn + Store :=
  seq_stmt stmt_income (seq_stmt stmt_price stmt_category).

(** A session right after line 75: the example dataset is the only object,
    [filtered_data] is unbound. *)
Definition example_store : Store :=
  mkStore (fun _ => example_data) 1%nat 0%nat (100000, 300000)%Z ["INLAND"]
          opt_low None.

(** * Properties *)

Unset Implicit Arguments.

(** ** Comparisons compute the order *)

Lemma le_spec (x y : float64) : Float64.le x y = true <-> Le x y.
Proof.
  destruct x as [| |a|], y as [| |b|]; cbn [Float64.le]; split; intro H;
    try discriminate; try reflexivity;
    try (constructor; discriminate);
    try (inversion H; subst; congruence).
  - apply Le_fin. apply Qle_alt. destruct (a ?= b)%Q; congruence.
  - inversion H as [? ? Hab| |]; subst.
    pose proof (proj1 (Qle_alt a b) Hab) as Hc.
    destruct (a ?= b)%Q; congruence.
Qed.

Lemma lt_spec (x y : float64) : Float64.lt x y = true <-> Lt x y.
Proof.
  destruct x as [| |a|], y as [| |b|]; cbn [Float64.lt]; split; intro H;
    try discriminate; try reflexivity;
    try constructor;
    try (inversion H; fail).
  - apply Qlt_alt. destruct (a ?= b)%Q; congruence.
  - inversion H as [? ? Hab| | |]; subst.
    now rewrite (proj1 (Qlt_alt a b) Hab).
Qed.

Lemma ge_spec (x y : float64) : Float64.ge x y = true <-> Le y x.
Proof. unfold Float64.ge. apply le_spec. Qed.

Lemma gt_spec (x y : float64) : Float64.gt x y = true <-> Lt y x.
Proof. unfold Float64.gt. apply lt_spec. Qed.

Lemma Le_refl_fin (q : Q) : Le (Fin q) (Fin q).
Proof. apply Le_fin. apply Qle_refl. Qed.

Lemma Le_of_int (a b : Z) : Le (of_int a) (of_int b) <-> (a <= b)%Z.
Proof.
  unfold of_int. split; intro H.
  - inversion H as [? ? Hab| |]; subst. now rewrite Zle_Qle.
  - apply Le_fin. now rewrite <- Zle_Qle.
Qed.

(** ** Masks and selection *)

Lemma series_and_map (p q : Row -> bool) (rs : list Row) :
  series_and (map p rs) (map q rs) = map (fun r => p r && q r) rs.
Proof. induction rs as [|r rs IH]; simpl; [reflexivity | now rewrite IH]. Qed.

Lemma select_rows_map (p : Row -> bool) (rs : list Row) :
  select_rows rs (map p rs) = filter p rs.
Proof.
  induction rs as [|r rs IH]; simpl; [reflexivity|].
  destruct (p r); now rewrite IH.
Qed.

Lemma filter_Subseq (A : Type) (p : A -> bool) (l : list A) :
  Subseq (filter p l) l.
Proof.
  induction l as [|x l IH]; simpl.
  - constructor.
  - destruct (p x); now constructor.
Qed.

Lemma Subseq_trans (A : Type) (l1 l2 l3 : list A) :
  Subseq l1 l2 -> Subseq l2 l3 -> Subseq l1 l3.
Proof.
  intros H12 H23. revert l1 H12.
  induction H23 as [|x l2 l3 _ IH|x l2 l3 _ IH]; intros l1 H12.
  - exact H12.
  - inversion H12; subst.
    + apply Subseq_keep. now apply IH.
    + apply Subseq_drop. now apply IH.
  - apply Subseq_drop. now apply IH.
Qed.

Lemma Subseq_In (A : Type) (l1 l2 : list A) (x : A) :
  Subseq l1 l2 -> In x l1 -> In x l2.
Proof.
  induction 1 as [|y l1 l2 _ IH|y l1 l2 _ IH]; simpl; intuition.
Qed.

(** ** The three steps as filters of the row list *)

Lemma filter_true (A : Type) (l : list A) : filter (fun _ => true) l = l.
Proof. induction l as [|x l IH]; simpl; congruence. Qed.

Lemma income_step_rows (data : DataFrame) (lvl : string) :
  rows (income_step data lvl)
  = filter (fun r => income_test lvl (median_income r)) (rows data).
Proof.
  unfold income_step, income_test.
  destruct (lvl =? _); [|destruct (lvl =? _)]; unfold getitem_mask, col_cmp;
    simpl; rewrite ?series_and_map; apply select_rows_map.
Qed.

Lemma income_step_columns (data : DataFrame) (lvl : string) :
  columns (income_step data lvl) = columns data.
Proof.
  unfold income_step.
  destruct (lvl =? _); [|destruct (lvl =? _)]; reflexivity.
Qed.

Lemma price_step_rows (fd : DataFrame) (pr : Z * Z) :
  rows (price_step fd pr)
  = filter (fun r => price_test pr (median_house_value r)) (rows fd).
Proof.
  unfold price_step, price_test, getitem_mask, col_cmp; simpl.
  rewrite series_and_map. apply select_rows_map.
Qed.

Lemma category_step_rows (data fd : DataFrame) (loc : list string) :
  rows (category_step data fd loc) = filter (category_test data loc) (rows fd).
Proof.
  unfold category_step, category_test.
  destruct (has_column _ data && truthy loc).
  - unfold getitem_mask, col_isin; simpl. apply select_rows_map.
  - now rewrite filter_true.
Qed.

Lemma category_step_columns (data fd : DataFrame) (loc : list string) :
  columns (category_step data fd loc) = columns fd.
Proof.
  unfold category_step. destruct (_ && _); reflexivity.
Qed.

Lemma filtered_data_rows (data : DataFrame) (lvl : string) (pr : Z * Z)
    (loc : list string) :
  rows (filtered_data data lvl pr loc)
  = filter (category_test data loc)
      (filter (fun r => price_test pr (median_house_value r))
         (filter (fun r => income_test lvl (median_income r)) (rows data))).
Proof.
  unfold filtered_data.
  now rewrite category_step_rows, price_step_rows, income_step_rows.
Qed.

(** ** The mask entries decide the stated predicates *)

Lemma income_test_spec (b : Bucket) (x : float64) :
  income_test (bucket_label b) x = true <-> in_bucket b x.
Proof.
  destruct b; unfold income_test;
    cbn -[Float64.le Float64.lt Float64.gt Float64.ge lit_2_5 lit_4_5].
  - apply le_spec.
  - rewrite andb_true_iff, gt_spec, lt_spec. reflexivity.
  - apply ge_spec.
Qed.

Lemma price_test_spec (pr : Z * Z) (x : float64) :
  price_test pr x = true <-> in_price_range pr x.
Proof.
  unfold price_test, in_price_range.
  rewrite andb_true_iff, ge_spec, le_spec. reflexivity.
Qed.

Lemma isin_spec (allowed : list string) (v : string) :
  isin allowed v = true <-> In v allowed.
Proof.
  unfold isin. rewrite existsb_exists. split.
  - intros [y [Hy Heq]]. apply String.eqb_eq in Heq. now subst.
  - intro H. exists v. split; [exact H | apply String.eqb_refl].
Qed.

Lemma has_column_spec (label : string) (df : DataFrame) :
  has_column label df = true <-> In label (columns df).
Proof. apply (isin_spec (columns df) label). Qed.

Lemma truthy_spec (A : Type) (l : list A) : truthy l = true <-> l <> [].
Proof. destruct l; simpl; split; congruence. Qed.

Lemma category_test_spec (data : DataFrame) (loc : list string) (r : Row) :
  category_test data loc r = true <-> satisfies_category data loc r.
Proof.
  unfold category_test, satisfies_category, category_active.
  destruct (has_column _ data && truthy loc) eqn:E.
  - apply andb_true_iff in E. destruct E as [Hc Ht].
    apply has_column_spec in Hc. apply truthy_spec in Ht.
    rewrite isin_spec. tauto.
  - split; [|reflexivity]. intros _ [Hc Ht].
    apply has_column_spec in Hc. apply truthy_spec in Ht.
    rewrite Hc, Ht in E. discriminate.
Qed.

Lemma filtered_data_columns (data : DataFrame) (lvl : string) (pr : Z * Z)
    (loc : list string) :
  columns (filtered_data data lvl pr loc) = columns data.
Proof.
  unfold filtered_data. rewrite category_step_columns.
  unfold price_step. simpl. apply income_step_columns.
Qed.

Create HintDb frames.
#[local] Hint Resolve filter_Subseq Subseq_trans : frames.

(** ** The filter pipeline *)

(** C1. For every dataset, income bucket, price bounds and selection of
    categories, the filter returns a frame with the columns of the input whose
    rows are an order-preserving sub-sequence of the input's rows, and every
    retained row satisfies the selected income-bucket predicate, the
    inclusive price-range predicate and, when the category predicate is
    active, membership in the selected categories. *)
Theorem filter_subsequence_sound (data : DataFrame) (b : Bucket)
    (price_range : Z * Z) (location_types : list string) :
  let out := filtered_data data (bucket_label b) price_range location_types in
  columns out = columns data /\
  Subseq (rows out) (rows data) /\
  Forall (fun r =>
            in_bucket b (median_income r) /\
            in_price_range price_range (median_house_value r) /\
            satisfies_category data location_types r)
         (rows out).
Proof.
  cbv zeta. split; [apply filtered_data_columns|].
  rewrite filtered_data_rows. split.
  - eauto 6 with frames.
  - apply Forall_forall. intros r Hr.
    apply filter_In in Hr. destruct Hr as [Hr Hc].
    apply filter_In in Hr. destruct Hr as [Hr Hp].
    apply filter_In in Hr. destruct Hr as [_ Hi].
    split; [now apply income_test_spec|].
    split; [now apply price_test_spec | now apply category_test_spec].
Qed.

(** C2. On every real income value exactly one of the three bucket tests of
    the income dispatch holds; Low is [income <= 2.5], Medium is
    [2.5 < income < 4.5], High is [income >= 4.5]; 2.5 is in Low and not in
    Medium, 4.5 is in High and not in Medium. *)
Theorem income_buckets_partition (q : Q) :
  exactly_one (income_test opt_low (Fin q))
              (income_test opt_medium (Fin q))
              (income_test opt_high (Fin q)) = true /\
  (income_test opt_low (Fin q) = true <-> (q <= 5 # 2)%Q) /\
  (income_test opt_medium (Fin q) = true <-> (5 # 2 < q)%Q /\ (q < 9 # 2)%Q) /\
  (income_test opt_high (Fin q) = true <-> (9 # 2 <= q)%Q) /\
  income_test opt_low lit_2_5 = true /\
  income_test opt_medium lit_2_5 = false /\
  income_test opt_high lit_2_5 = false /\
  income_test opt_high lit_4_5 = true /\
  income_test opt_medium lit_4_5 = false /\
  income_test opt_low lit_4_5 = false.
Proof.
  assert (Hlow : income_test opt_low (Fin q) = true <-> (q <= 5 # 2)%Q).
  { rewrite (income_test_spec Low). simpl. split.
    - intro H. now inversion H.
    - apply Le_fin. }
  assert (Hmed : income_test opt_medium (Fin q) = true
                 <-> (5 # 2 < q)%Q /\ (q < 9 # 2)%Q).
  { rewrite (income_test_spec Medium). simpl. split.
    - intros [H1 H2]. inversion H1; inversion H2; subst. now split.
    - intros [H1 H2]. split; now apply Lt_fin. }
  assert (Hhigh : income_test opt_high (Fin q) = true <-> (9 # 2 <= q)%Q).
  { rewrite (income_test_spec High). simpl. split.
    - intro H. now inversion H.
    - apply Le_fin. }
  split; [|split; [exact Hlow|split; [exact Hmed|split; [exact Hhigh|]]]];
    [|repeat split; reflexivity].
  unfold exactly_one.
  destruct (Qlt_le_dec (5 # 2) q) as [H1|H1];
    [destruct (Qlt_le_dec q (9 # 2)) as [H2|H2]|].
  - (* Medium *)
    assert (El : income_test opt_low (Fin q) = false).
    { apply not_true_is_false. rewrite Hlow. now apply Qlt_not_le. }
    assert (Eh : income_test opt_high (Fin q) = false).
    { apply not_true_is_false. rewrite Hhigh. now apply Qlt_not_le. }
    assert (Em : income_test opt_medium (Fin q) = true) by now apply Hmed.
    now rewrite El, Em, Eh.
  - (* High *)
    assert (El : income_test opt_low (Fin q) = false).
    { apply not_true_is_false. rewrite Hlow. now apply Qlt_not_le. }
    assert (Em : income_test opt_medium (Fin q) = false).
    { apply not_true_is_false. rewrite Hmed. intros [_ H].
      now apply (Qlt_not_le _ _ H). }
    assert (Eh : income_test opt_high (Fin q) = true) by now apply Hhigh.
    now rewrite El, Em, Eh.
  - (* Low *)
    assert (El : income_test opt_low (Fin q) = true) by now apply Hlow.
    assert (Em : income_test opt_medium (Fin q) = false).
    { apply not_true_is_false. rewrite Hmed. intros [H _].
      now apply (Qlt_not_le _ _ H). }
    assert (Eh : income_test opt_high (Fin q) = false).
    { apply not_true_is_false. rewrite Hhigh. intro H.
      assert (H3 : (9 # 2 <= 5 # 2)%Q) by (eapply Qle_trans; eauto).
      revert H3. apply Qlt_not_le. reflexivity. }
    now rewrite El, Em, Eh.
Qed.

(** A NaN income passes none of the three tests. *)
Lemma income_test_nan (lvl : string) : income_test lvl NaN = false.
Proof.
  unfold income_test. destruct (lvl =? _); [|destruct (lvl =? _)]; reflexivity.
Qed.

Lemma category_step_empty (data fd : DataFrame) :
  category_step data fd [] = fd.
Proof. unfold category_step. simpl. now rewrite andb_false_r. Qed.

(** C3. With an empty selection of categories the category step is skipped:
    the filter returns what the income and price steps leave, whatever the
    dataset, the income option and the price bounds; on the example dataset
    that result is the second row, not the empty frame. *)
Theorem empty_categories_pass_through (data : DataFrame) (income_level : string)
    (price_range : Z * Z) :
  filtered_data data income_level price_range []
  = price_step (income_step data income_level) price_range /\
  category_step data (price_step (income_step data income_level) price_range) []
  = price_step (income_step data income_level) price_range /\
  rows (filtered_data example_data opt_medium (0, 1000000)%Z [])
  = [example_row 3 200000 "NEAR BAY"].
Proof.
  unfold filtered_data. rewrite category_step_empty.
  repeat split; reflexivity.
Qed.

(** C4, as the code refutes it: on the example dataset, the Medium option,
    the price range [0, 1000000] and an empty selection of categories, the
    filter returns the second row. *)
Lemma empty_categories_not_empty_output :
  rows (filtered_data example_data opt_medium (0, 1000000)%Z [])
  = [example_row 3 200000 "NEAR BAY"] /\
  List.length (rows (filtered_data example_data opt_medium (0, 1000000)%Z []))
  = 1%nat.
Proof. split; reflexivity. Qed.

(** C4, amended. With an empty selection of categories the category
    criterion excludes no row: a row is in the output exactly when it is a
    row of the dataset that satisfies the selected income-bucket predicate
    and the price-range predicate. *)
Theorem empty_categories_exclude_nothing (data : DataFrame) (b : Bucket)
    (price_range : Z * Z) (r : Row) :
  In r (rows (filtered_data data (bucket_label b) price_range []))
  <-> In r (rows data) /\
      in_bucket b (median_income r) /\
      in_price_range price_range (median_house_value r).
Proof.
  unfold filtered_data. rewrite category_step_empty.
  rewrite price_step_rows, income_step_rows, !filter_In.
  rewrite income_test_spec, price_test_spec. tauto.
Qed.

(** C5. The price step keeps, in order, exactly the rows whose
    [median_house_value] passes the price test, and the test holds exactly
    when [price_min <= median_house_value <= price_max]; both bounds are
    inclusive: for [price_min <= price_max], a row whose value equals
    [price_min] or [price_max] is kept. *)
Theorem price_range_inclusive (fd : DataFrame) (price_min price_max : Z) :
  rows (price_step fd (price_min, price_max))
  = filter (fun r => price_test (price_min, price_max) (median_house_value r))
      (rows fd) /\
  (forall x : float64,
     price_test (price_min, price_max) x = true
     <-> Le (of_int price_min) x /\ Le x (of_int price_max)) /\
  (forall r : Row,
     In r (rows (price_step fd (price_min, price_max)))
     <-> In r (rows fd) /\
         Le (of_int price_min) (median_house_value r) /\
         Le (median_house_value r) (of_int price_max)) /\
  ((price_min <= price_max)%Z ->
   forall r : Row, In r (rows fd) ->
     median_house_value r = of_int price_min \/
     median_house_value r = of_int price_max ->
     In r (rows (price_step fd (price_min, price_max)))).
Proof.
  assert (Hin : forall r : Row,
     In r (rows (price_step fd (price_min, price_max)))
     <-> In r (rows fd) /\
         Le (of_int price_min) (median_house_value r) /\
         Le (median_house_value r) (of_int price_max)).
  { intro r. rewrite price_step_rows, filter_In, price_test_spec.
    reflexivity. }
  split; [apply price_step_rows|].
  split; [intro x; apply price_test_spec|].
  split; [exact Hin|].
  intros Hle r Hr [Hv|Hv]; apply Hin; rewrite Hv;
    (split; [exact Hr|]); split;
    try apply Le_refl_fin; now apply Le_of_int.
Qed.

(** A dataset with one row at each bound of the range [100000, 300000]: both
    rows are kept. *)
Lemma price_range_inclusive_witness :
  (100000 <= 300000)%Z /\
  In (example_row 2 100000 "INLAND")
     (rows (price_step example_data (100000, 300000)%Z)) /\
  In (example_row 5 300000 "INLAND")
     (rows (price_step example_data (100000, 300000)%Z)).
Proof.
  split; [lia|]. split.
  - apply (proj2 (proj2 (proj2
      (price_range_inclusive example_data 100000 300000)))).
    + lia.
    + simpl. auto.
    + left. reflexivity.
  - apply (proj2 (proj2 (proj2
      (price_range_inclusive example_data 100000 300000)))).
    + lia.
    + simpl. auto.
    + right. reflexivity.
Defined.

(** C8. On a dataset of three rows with (median_income, median_house_value,
    ocean_proximity) equal to (2.0, 100000, INLAND), (3.0, 200000, NEAR BAY)
    and (5.0, 300000, INLAND), the filter with the Low option, the price
    range [100000, 300000] and the categories [INLAND] returns exactly the
    first row. *)
Theorem example_scenario (cols : list string) (r1 r2 r3 : Row) :
  median_income r1 = Fin 2 -> median_house_value r1 = of_int 100000 ->
  ocean_proximity r1 = "INLAND" ->
  median_income r2 = Fin 3 -> median_house_value r2 = of_int 200000 ->
  ocean_proximity r2 = "NEAR BAY" ->
  median_income r3 = Fin 5 -> median_house_value r3 = of_int 300000 ->
  ocean_proximity r3 = "INLAND" ->
  rows (filtered_data (mkFrame cols [r1; r2; r3]) opt_low
          (100000, 300000)%Z ["INLAND"])
  = [r1].
Proof.
  intros I1 V1 P1 I2 V2 P2 I3 V3 P3.
  rewrite filtered_data_rows. unfold category_test. simpl rows.
  cbn [filter]. rewrite I1, I2, I3.
  change (income_test opt_low (Fin 2)) with true.
  change (income_test opt_low (Fin 3)) with false.
  change (income_test opt_low (Fin 5)) with false.
  cbn [filter]. rewrite V1.
  change (price_test (100000, 300000)%Z (of_int 100000)) with true.
  cbn [filter]. rewrite P1.
  destruct (has_column "ocean_proximity" _ && truthy ["INLAND"]);
    reflexivity.
Qed.

(** The example dataset itself, with the column [ocean_proximity] present. *)
Lemma example_scenario_witness :
  rows (filtered_data example_data opt_low (100000, 300000)%Z ["INLAND"])
  = [example_row 2 100000 "INLAND"].
Proof.
  apply (example_scenario
           ["median_income"; "median_house_value"; "ocean_proximity"]
           (example_row 2 100000 "INLAND") (example_row 3 200000 "NEAR BAY")
           (example_row 5 300000 "INLAND")); reflexivity.
Defined.

(** C10. Every income option other than the exact strings of the Low and
    Medium options is dispatched to the High branch: the income step then
    keeps, in order, exactly the rows with [median_income >= 4.5]. *)
Theorem unrecognized_option_is_high (data : DataFrame) (income_level : string) :
  income_level <> "Low (±2.5)" ->
  income_level <> "Medium (> 2.5 & < 4.5)" ->
  income_step data income_level
  = getitem_mask data (col_cmp Float64.ge median_income data lit_4_5) /\
  rows (income_step data income_level)
  = filter (fun r => (median_income r >=? lit_4_5)%f64) (rows data) /\
  (forall r : Row,
     In r (rows (income_step data income_level))
     <-> In r (rows data) /\ Le lit_4_5 (median_income r)).
Proof.
  intros Hl Hm.
  apply String.eqb_neq in Hl. apply String.eqb_neq in Hm.
  assert (E : income_step data income_level
    = getitem_mask data (col_cmp Float64.ge median_income data lit_4_5)).
  { unfold income_step. now rewrite Hl, Hm. }
  rewrite E. split; [reflexivity|].
  assert (R : rows (getitem_mask data
                      (col_cmp Float64.ge median_income data lit_4_5))
              = filter (fun r => (median_income r >=? lit_4_5)%f64)
                  (rows data)).
  { unfold getitem_mask, col_cmp. simpl. apply select_rows_map. }
  split; [exact R|].
  intro r. rewrite R, filter_In, ge_spec. reflexivity.
Qed.

(** An option the radio never offers, on the example dataset: the third
    row, the only one with income at least 4.5, is kept. *)
Lemma unrecognized_option_is_high_witness :
  rows (income_step example_data "Very high")
  = filter (fun r => (median_income r >=? lit_4_5)%f64) (rows example_data) /\
  rows (income_step example_data "Very high")
  = [example_row 5 300000 "INLAND"].
Proof.
  split.
  - apply (proj1 (proj2
      (unrecognized_option_is_high example_data "Very high"
         ltac:(discriminate) ltac:(discriminate)))).
  - reflexivity.
Defined.

(** ** The filter as statements over the session's objects *)

Lemma has_column_columns (label : string) (d1 d2 : DataFrame) :
  columns d1 = columns d2 -> has_column label d1 = has_column label d2.
Proof. intro H. unfold has_column. now rewrite H. Qed.

Lemma price_step_columns (fd : DataFrame) (pr : Z * Z) :
  columns (price_step fd pr) = columns fd.
Proof. reflexivity. Qed.

(** What one run of lines 77-92 does to a store whose [data] is a live
    object. *)
Lemma run_filter_spec (s : Store) :
  (n_data s < next_free s)%nat ->
  if has_column "median_income" (objects s (n_data s)) &&
     has_column "median_house_value" (objects s (n_data s))
  then
    exists (s' : Store) (a : addr),
      run_filter s = inr s' /\
      (forall b : addr, (b < next_free s)%nat -> objects s' b = objects s b) /\
      (next_free s <= a < next_free s')%nat /\
      n_data s' = n_data s /\
      n_price_range s' = n_price_range s /\
      n_location_types s' = n_location_types s /\
      n_income_level s' = n_income_level s /\
      n_filtered_data s' = Some a /\
      objects s' a
      = filtered_data (objects s (n_data s)) (n_income_level s)
          (n_price_range s) (n_location_types s)
  else run_filter s = inl KeyError.
Proof.
  destruct s as [obj nf nd pr loc lvl fdn].
  cbn [n_data next_free objects n_price_range n_location_types
       n_income_level n_filtered_data].
  intro Hlive.
  set (data := obj nd).
  assert (Hd : Nat.eqb nd nf = false) by (apply Nat.eqb_neq; lia).
  assert (Hd1 : Nat.eqb nd (S nf) = false) by (apply Nat.eqb_neq; lia).
  assert (Hfresh : forall b : addr, (b < nf)%nat ->
            Nat.eqb b nf = false /\ Nat.eqb b (S nf) = false /\
            Nat.eqb b (S (S nf)) = false).
  { intros b Hb. repeat split; apply Nat.eqb_neq; lia. }
  unfold run_filter, seq_stmt, stmt_income.
  cbn [n_data next_free objects n_price_range n_location_types
       n_income_level n_filtered_data].
  fold data.
  destruct (has_column "median_income" data) eqn:Emi; [|reflexivity].
  cbn [andb alloc assign_filtered_data n_data next_free objects
       n_price_range n_location_types n_income_level n_filtered_data].
  unfold stmt_price.
  cbn [alloc assign_filtered_data n_data next_free objects
       n_price_range n_location_types n_income_level n_filtered_data].
  rewrite !Nat.eqb_refl.
  rewrite (has_column_columns "median_house_value"
             (income_step data lvl) data)
    by apply income_step_columns.
  destruct (has_column "median_house_value" data) eqn:Emv; [|reflexivity].
  unfold stmt_category.
  cbn [alloc assign_filtered_data n_data next_free objects
       n_price_range n_location_types n_income_level n_filtered_data].
  rewrite Hd1, Hd, !Nat.eqb_refl. fold data.
  set (fd2 := price_step (income_step data lvl) pr).
  assert (Hout : filtered_data data lvl pr loc = category_step data fd2 loc)
    by reflexivity.
  unfold category_step in Hout.
  destruct (has_column "ocean_proximity" data && truthy loc) eqn:Ecat.
  - assert (Hop : has_column "ocean_proximity" fd2 = true).
    { apply andb_true_iff in Ecat. destruct Ecat as [Hc _].
      rewrite (has_column_columns "ocean_proximity" fd2 data);
        [exact Hc|].
      unfold fd2. rewrite price_step_columns.
      apply income_step_columns. }
    rewrite Hop.
    cbn [alloc assign_filtered_data n_data next_free objects
         n_price_range n_location_types n_income_level n_filtered_data].
    eexists. exists (S (S nf)).
    split; [reflexivity|].
    cbn [assign_filtered_data n_data next_free objects n_price_range
         n_location_types n_income_level n_filtered_data].
    split.
    { intros b Hb. destruct (Hfresh b Hb) as [H0 [H1 H2]].
      now rewrite H2, H1, H0. }
    split; [lia|].
    repeat (split; [reflexivity|]).
    rewrite Nat.eqb_refl. now rewrite Hout.
  - eexists. exists (S nf).
    split; [reflexivity|].
    cbn [assign_filtered_data n_data next_free objects n_price_range
         n_location_types n_income_level n_filtered_data].
    split.
    { intros b Hb. destruct (Hfresh b Hb) as [H0 [H1 _]].
      now rewrite H1, H0. }
    split; [lia|].
    repeat (split; [reflexivity|]).
    rewrite Nat.eqb_refl. now rewrite Hout.
Qed.

(** C9. Running lines 77-92 from a store in which [data] is bound to a live
    object either stops with a KeyError (the frame lacks [median_income] or
    [median_house_value]) or ends in a store in which every object that
    existed before, the dataset included, is unchanged, [data] and the
    three criteria are bound as before, and [filtered_data] is bound to a
    new object whose content is a function of the dataset and the criteria
    alone; running the lines again from that store returns the same
    content and still leaves the dataset as it was. *)
Theorem run_filter_pure (s : Store) :
  (n_data s < next_free s)%nat ->
  let data := objects s (n_data s) in
  let out := filtered_data data (n_income_level s) (n_price_range s)
               (n_location_types s) in
  match run_filter s with
  | inr s' =>
      (forall b : addr, (b < next_free s)%nat -> objects s' b = objects s b) /\
      objects s' (n_data s') = data /\
      n_data s' = n_data s /\
      n_price_range s' = n_price_range s /\
      n_location_types s' = n_location_types s /\
      n_income_level s' = n_income_level s /\
      (exists a : addr,
         n_filtered_data s' = Some a /\
         (next_free s <= a < next_free s')%nat /\
         objects s' a = out) /\
      (exists (s'' : Store) (a' : addr),
         run_filter s' = inr s'' /\
         n_filtered_data s'' = Some a' /\
         objects s'' a' = out /\
         objects s'' (n_data s'') = data)
  | inl e =>
      e = KeyError /\
      (has_column "median_income" data = false \/
       has_column "median_house_value" data = false)
  end.
Proof.
  intro Hlive. cbv zeta.
  pose proof (run_filter_spec s Hlive) as H.
  destruct (has_column "median_income" (objects s (n_data s))) eqn:Emi;
    [destruct (has_column "median_house_value" (objects s (n_data s)))
       eqn:Emv|]; cbn [andb] in H.
  - destruct H
      as [s' [a [Hrun [Hkeep [Ha [Hn1 [Hn2 [Hn3 [Hn4 [Hf Hobj]]]]]]]]]].
    rewrite Hrun.
    assert (Hdata : objects s' (n_data s') = objects s (n_data s)).
    { rewrite Hn1. now apply Hkeep. }
    split; [exact Hkeep|]. split; [exact Hdata|].
    repeat (split; [assumption|]).
    split; [exists a; repeat split; try assumption; lia|].
    assert (Hlive' : (n_data s' < next_free s')%nat) by (rewrite Hn1; lia).
    pose proof (run_filter_spec s' Hlive') as H'.
    rewrite Hdata, Emi, Emv in H'. cbn [andb] in H'.
    destruct H'
      as [s'' [a' [Hrun' [Hkeep' [_ [Hm1 [_ [_ [_ [Hf' Hobj']]]]]]]]]].
    exists s'', a'. split; [exact Hrun'|]. split; [exact Hf'|].
    split.
    + rewrite Hobj'. now rewrite Hn2, Hn3, Hn4.
    + rewrite Hm1, <- Hdata. now apply Hkeep'.
  - rewrite H. split; [reflexivity | now right].
  - rewrite H. split; [reflexivity | now left].
Qed.

(** The example session: the run succeeds, the dataset at address 0 is
    untouched and [filtered_data] holds the first row. *)
Lemma run_filter_pure_witness :
  match run_filter example_store with
  | inr s' =>
      (forall b : addr, (b < 1)%nat -> objects s' b = example_data) /\
      objects s' (n_data s') = example_data /\
      n_data s' = 0%nat /\
      n_price_range s' = (100000, 300000)%Z /\
      n_location_types s' = ["INLAND"] /\
      n_income_level s' = opt_low /\
      (exists a : addr,
         n_filtered_data s' = Some a /\
         (1 <= a < next_free s')%nat /\
         objects s' a
         = filtered_data example_data opt_low (100000, 300000)%Z ["INLAND"]) /\
      (exists (s'' : Store) (a' : addr),
         run_filter s' = inr s'' /\
         n_filtered_data s'' = Some a' /\
         objects s'' a'
         = filtered_data example_data opt_low (100000, 300000)%Z ["INLAND"] /\
         objects s'' (n_data s'') = example_data)
  | inl e =>
      e = KeyError /\
      (has_column "median_income" example_data = false \/
       has_column "median_house_value" example_data = false)
  end.
Proof. exact (run_filter_pure example_store (le_n 1)). Defined.

(** ** The data loader *)

Lemma frame_of_columns_rows (n : nat)
    (lon lat : list float64) (age rooms bedrooms pop hh : list Z)
    (income : list float64) (value : list Z) (proximity : list string) :
  List.length lon = n -> List.length lat = n -> List.length age = n ->
  List.length rooms = n -> List.length bedrooms = n -> List.length pop = n ->
  List.length hh = n -> List.length income = n -> List.length value = n ->
  List.length proximity = n ->
  frame_of_columns lon lat age rooms bedrooms pop hh income value proximity
  = inr (mkFrame synthetic_columns
           (map (fun i =>
                   mkRow (nth i lon NaN) (nth i lat NaN) (nth i age 0%Z)
                         (nth i rooms 0%Z) (nth i bedrooms 0%Z)
                         (nth i pop 0%Z) (nth i hh 0%Z) (nth i income NaN)
                         (of_int (nth i value 0%Z)) (nth i proximity ""))
                (seq 0 n))).
Proof.
  intros H1 H2 H3 H4 H5 H6 H7 H8 H9 H10. unfold frame_of_columns.
  rewrite H1, H2, H3, H4, H5, H6, H7, H8, H9, H10.
  unfold all_lengths. cbn [forallb]. rewrite Nat.eqb_refl. reflexivity.
Qed.

Section LoaderProperties.

Context {NR : NumpyRandom}.

Lemma bind_draw (A B : Type) (f : rng_state -> A * rng_state)
    (k : A -> M B) (w : World) :
  bind (draw f) k w
  = k (fst (f (np_state w)))
      (mkWorld (read_csv w) (snd (f (np_state w))) (warnings w)).
Proof. unfold bind, draw. destruct (f (np_state w)). reflexivity. Qed.

Lemma bind_st_warning (B : Type) (msg : string) (k : unit -> M B) (w : World) :
  bind (st_warning msg) k w
  = k tt (mkWorld (read_csv w) (np_state w) (warnings w ++ [msg])).
Proof. reflexivity. Qed.

Lemma bind_np_random_seed (B : Type) (n : Z) (k : unit -> M B) (w : World) :
  bind (np_random_seed n) k w
  = k tt (mkWorld (read_csv w) (seed_state n) (warnings w)).
Proof. reflexivity. Qed.

Ltac run_synthetic :=
  unfold synthetic_data;
  rewrite bind_st_warning, bind_np_random_seed;
  repeat (rewrite bind_draw; cbn [np_state read_csv warnings]);
  unfold lift_result.

(** The fallback reseeds the generator before it draws: its result and
    the final generator state are the same from every world, and it only
    appends the warning. *)
Lemma synthetic_data_any_world :
  exists (r : exn + DataFrame) (s : rng_state),
    forall w : World,
      synthetic_data w
      = (r,
         mkWorld (read_csv w) s
           (warnings w ++ ["housing.csv not found. Using sample data."])).
Proof. eexists. eexists. intro w. run_synthetic. reflexivity. Qed.

Context {NRS : NumpyRandomSpec NR}.

(** Symbolic run of the fallback: one frame and one final generator state
    serve every starting world. *)
Lemma synthetic_data_run :
  exists (df : DataFrame) (s : rng_state),
    (forall w : World,
       synthetic_data w
       = (inr df,
          mkWorld (read_csv w) s
            (warnings w ++ ["housing.csv not found. Using sample data."]))) /\
    columns df = synthetic_columns /\
    List.length (rows df) = 1000%nat.
Proof.
  eexists. eexists. split.
  { intro w. run_synthetic.
    rewrite (frame_of_columns_rows 1000);
      first [reflexivity | apply uniform_size
            | apply randint_size; reflexivity
            | apply choice_size; discriminate]. }
  cbn [columns rows]. split; [reflexivity|].
  now rewrite length_map, length_seq.
Qed.

(** C7. [load_data] has one recoverable failure: when reading
    [housing.csv] raises FileNotFoundError it appends the warning to the
    page and returns the synthetic frame instead of raising; when the read
    succeeds it returns the parsed frame and leaves the world, warnings
    included, untouched; every other exception of the read propagates. *)
Theorem load_data_outcomes (w : World) :
  match read_csv w "housing.csv" with
  | inr df => load_data w = (inr df, w)
  | inl FileNotFoundError =>
      exists (df : DataFrame) (w' : World),
        load_data w = (inr df, w') /\
        synthetic_data w = (inr df, w') /\
        read_csv w' = read_csv w /\
        warnings w'
        = (warnings w ++ ["housing.csv not found. Using sample data."])%list
  | inl e => load_data w = (inl e, w)
  end.
Proof.
  unfold load_data, bind, try_except_FileNotFoundError, pd_read_csv, ret.
  destruct (read_csv w "housing.csv") as [[| |name]|df]; try reflexivity.
  destruct synthetic_data_run as [df [s [Hrun _]]].
  rewrite Hrun. eexists. eexists. repeat split.
Qed.

End LoaderProperties.

(** ** The reference generator meets the contract *)

Lemma lcg_draws_length (A : Type) (f : Z -> A) (n : nat) (s : Z) :
  List.length (fst (Lcg.draws f n s)) = n.
Proof.
  revert s. induction n as [|n IH]; intro s; simpl; [reflexivity|].
  specialize (IH (Lcg.next s)).
  destruct (Lcg.draws f n (Lcg.next s)) as [l s']. simpl in *. congruence.
Qed.

#[local] Instance lcg_random_spec : NumpyRandomSpec lcg_random.
Proof. constructor; simpl; intros; apply lcg_draws_length. Qed.

(** [load_data] over the reference generator: without the file, and with a
    file that parses to the example dataset. *)
Lemma load_data_outcomes_witness :
  (exists (df : DataFrame) (w' : World),
     load_data missing_world = (inr df, w') /\
     synthetic_data missing_world = (inr df, w') /\
     read_csv w' = read_csv missing_world /\
     warnings w' = ["housing.csv not found. Using sample data."]) /\
  load_data present_world = (inr example_data, present_world).
Proof.
  split.
  - exact (@load_data_outcomes lcg_random lcg_random_spec missing_world).
  - exact (@load_data_outcomes lcg_random lcg_random_spec present_world).
Defined.

(** ** The fallback on numpy's generator *)

Lemma mt_samples_length (A : Type)
    (f : Mt19937.state -> A * Mt19937.state) (n : nat) (s : Mt19937.state) :
  List.length (fst (Mt19937.samples f n s)) = n.
Proof.
  revert s. induction n as [|n IH]; intro s; simpl; [reflexivity|].
  destruct (f s) as [x s1]. specialize (IH s1).
  destruct (Mt19937.samples f n s1) as [l s2]. simpl in *. congruence.
Qed.

(** numpy's generator returns [size] samples for valid arguments. *)
#[local] Instance numpy_mt19937_spec : NumpyRandomSpec numpy_mt19937.
Proof.
  constructor; simpl.
  - intros. apply mt_samples_length.
  - intros lo hi n s H. unfold Mt19937.randint.
    apply Z.ltb_lt in H. rewrite H. apply mt_samples_length.
  - intros opts n s H. unfold Mt19937.choice.
    destruct opts as [|c opts]; [congruence|].
    unfold Mt19937.randint.
    replace (0 <? Z.of_nat (List.length (c :: opts)))%Z with true
      by (symmetry; apply Z.ltb_lt; simpl List.length; lia).
    pose proof (mt_samples_length Z
      (fun s0 =>
         let (v, s1) :=
           Mt19937.bounded_uint64
             (Z.of_nat (List.length (c :: opts)) - 1 - 0) s0 in
         ((0 + v)%Z, s1)) n s) as Hlen.
    destruct (Mt19937.samples _ n s) as [idx s'].
    simpl fst in *. now rewrite length_map.
Qed.

Lemma in_interval_b_spec (lo hi : Q) (x : float64) :
  in_interval_b lo hi x = true -> Le (Fin lo) x /\ Lt x (Fin hi).
Proof.
  unfold in_interval_b. rewrite andb_true_iff, le_spec, lt_spec. tauto.
Qed.

Lemma in_int_range_b_spec (lo hi z : Z) :
  in_int_range_b lo hi z = true -> (lo <= z < hi)%Z.
Proof. unfold in_int_range_b. lia. Qed.

Lemma synthetic_row_ok_b_sound (r : Row) :
  synthetic_row_ok_b r = true -> synthetic_row_ok r.
Proof.
  unfold synthetic_row_ok_b. rewrite !andb_true_iff.
  intros [[[[[[[[[H1 H2] H3] H4] H5] H6] H7] H8] H9] H10].
  constructor;
    try (now apply in_interval_b_spec);
    try (now apply in_int_range_b_spec).
  - destruct (median_house_value r) as [| |[z [d|d|]]|];
      try discriminate H9.
    exists z. split; [reflexivity | now apply in_int_range_b_spec].
  - now apply isin_spec.
Qed.

Lemma list_eqb_eq (l1 l2 : list string) : list_eqb l1 l2 = true -> l1 = l2.
Proof.
  revert l2. induction l1 as [|x l1 IH]; intros [|y l2] H;
    try discriminate H; [reflexivity|].
  simpl in H. apply andb_true_iff in H. destruct H as [Hx Hl].
  apply String.eqb_eq in Hx. subst. f_equal. now apply IH.
Qed.

(** The run of the fallback from seed 42, evaluated. *)
Lemma seed42_facts : seed42_check (synthetic_data numpy_world) = true.
Proof. vm_compute. reflexivity. Qed.

(** C6. On numpy's generator the fallback returns, from every starting
    world, a frame of exactly 1000 rows with the ten synthetic columns in
    which every value lies within the declared bound of lines 30-39, the
    upper bounds excluded; no sampling loop runs out of attempts; and
    because the generator is re-seeded with 42, any two invocations return
    the same frame, whatever the generator state, warnings or files they
    start from. *)
Theorem synthetic_data_deterministic_bounded (w : @World numpy_mt19937) :
  exists (df : DataFrame) (w' : @World numpy_mt19937),
    synthetic_data w = (inr df, w') /\
    List.length (rows df) = 1000%nat /\
    columns df = synthetic_columns /\
    Forall synthetic_row_ok (rows df) /\
    Mt19937.starved (np_state w') = false /\
    (forall w2 : @World numpy_mt19937, fst (synthetic_data w2) = inr df).
Proof.
  destruct (@synthetic_data_any_world numpy_mt19937) as [r [s Hall]].
  pose proof seed42_facts as Hc. rewrite (Hall numpy_world) in Hc.
  unfold seed42_check in Hc. cbn [fst snd np_state] in Hc.
  destruct r as [e|df]; [discriminate Hc|].
  rewrite !andb_true_iff in Hc. destruct Hc as [[[Hcols Hlen] Hrows] Hst].
  exists df. eexists. split; [apply Hall|].
  split; [now apply Nat.eqb_eq|].
  split; [now apply list_eqb_eq|].
  split.
  { apply Forall_forall. intros x Hx. apply synthetic_row_ok_b_sound.
    rewrite forallb_forall in Hrows. now apply Hrows. }
  split.
  { cbn [np_state]. now apply negb_true_iff. }
  intro w2. now rewrite Hall.
Qed.

(** * Further properties of the filter pipeline *)

Lemma frame_eq (a b : DataFrame) :
  columns a = columns b -> rows a = rows b -> a = b.
Proof. destruct a, b; simpl; intros; subst; reflexivity. Qed.

Lemma filter_comm (A : Type) (p q : A -> bool) (l : list A) :
  filter p (filter q l) = filter q (filter p l).
Proof.
  induction l as [|x l IH]; simpl; [reflexivity|].
  destruct (q x) eqn:Eq, (p x) eqn:Ep; simpl; rewrite ?Eq, ?Ep, IH;
    reflexivity.
Qed.

Lemma filter_rev3 (A : Type) (p q r : A -> bool) (l : list A) :
  filter p (filter q (filter r l)) = filter r (filter q (filter p l)).
Proof.
  rewrite (filter_comm A p q), (filter_comm A p r), (filter_comm A q r).
  reflexivity.
Qed.

Lemma filter_all (A : Type) (p : A -> bool) (l : list A) :
  (forall x, In x l -> p x = true) -> filter p l = l.
Proof.
  induction l as [|x l IH]; simpl; intro H; [reflexivity|].
  rewrite (H x (or_introl eq_refl)), IH; auto.
Qed.

Lemma filter_none (A : Type) (p : A -> bool) (l : list A) :
  (forall x, In x l -> p x = false) -> filter p l = [].
Proof.
  induction l as [|x l IH]; simpl; intro H; [reflexivity|].
  rewrite (H x (or_introl eq_refl)), IH; auto.
Qed.

Lemma filter_mono_Subseq (A : Type) (p q : A -> bool) (l : list A) :
  (forall x, In x l -> p x = true -> q x = true) ->
  Subseq (filter p l) (filter q l).
Proof.
  induction l as [|x l IH]; simpl; intro H; [constructor|].
  assert (IH' : Subseq (filter p l) (filter q l)) by (apply IH; auto).
  destruct (p x) eqn:Ep.
  - rewrite (H x (or_introl eq_refl) Ep). now constructor.
  - destruct (q x); [now constructor | exact IH'].
Qed.

Lemma Subseq_length (A : Type) (l1 l2 : list A) :
  Subseq l1 l2 -> (List.length l1 <= List.length l2)%nat.
Proof. induction 1; simpl; lia. Qed.

Lemma Le_trans (x y z : float64) : Le x y -> Le y z -> Le x z.
Proof.
  intros Hxy Hyz.
  destruct Hxy as [a b Hab|y Hy|x Hx].
  - inversion Hyz as [? c Hbc| |? _]; subst.
    + apply Le_fin. eapply Qle_trans; eauto.
    + apply Le_posinf. discriminate.
  - apply Le_neginf. inversion Hyz; subst; try discriminate.
    congruence.
  - inversion Hyz; subst. now apply Le_posinf.
Qed.

Lemma Le_not_nan (x y : float64) : Le x y -> x <> NaN /\ y <> NaN.
Proof. destruct 1; split; try discriminate; assumption. Qed.

Lemma Lt_not_nan (x y : float64) : Lt x y -> x <> NaN /\ y <> NaN.
Proof. destruct 1; split; discriminate. Qed.

Lemma isna_false (x : float64) : isna x = false <-> x <> NaN.
Proof. destruct x; simpl; split; congruence. Qed.

(** The three tests of one row, as one boolean. *)
Lemma filtered_data_In (data : DataFrame) (lvl : string) (pr : Z * Z)
    (loc : list string) (r : Row) :
  In r (rows (filtered_data data lvl pr loc))
  <-> In r (rows data) /\
      income_test lvl (median_income r) = true /\
      price_test pr (median_house_value r) = true /\
      category_test data loc r = true.
Proof. rewrite filtered_data_rows, !filter_In. tauto. Qed.

(** X1. The filter keeps exactly the rows that pass: a row is in the output
    if and only if it is a row of the dataset that satisfies the selected
    income-bucket predicate, the price-range predicate and the category
    criterion. *)
Theorem filter_keeps_exactly (data : DataFrame) (b : Bucket)
    (price_range : Z * Z) (location_types : list string) (r : Row) :
  In r (rows (filtered_data data (bucket_label b) price_range location_types))
  <-> In r (rows data) /\
      in_bucket b (median_income r) /\
      in_price_range price_range (median_house_value r) /\
      satisfies_category data location_types r.
Proof.
  rewrite filtered_data_In, income_test_spec, price_test_spec,
    category_test_spec.
  reflexivity.
Qed.

(** X2. The order of the three steps does not matter: applying the category
    step first, then the price step, then the income step yields the same
    frame as the script's order. *)
Theorem filter_steps_commute (data : DataFrame) (income_level : string)
    (price_range : Z * Z) (location_types : list string) :
  income_step
    (price_step (category_step data data location_types) price_range)
    income_level
  = filtered_data data income_level price_range location_types /\
  price_step (income_step data income_level) price_range
  = income_step (price_step data price_range) income_level.
Proof.
  split; apply frame_eq.
  - rewrite income_step_columns, filtered_data_columns.
    unfold price_step. simpl. apply category_step_columns.
  - rewrite income_step_rows, price_step_rows, category_step_rows,
      filtered_data_rows.
    apply filter_rev3.
  - unfold price_step. simpl. now rewrite !income_step_columns.
  - rewrite income_step_rows, !price_step_rows, income_step_rows.
    apply filter_comm.
Qed.

Lemma category_test_columns (d1 d2 : DataFrame) (loc : list string) (r : Row) :
  columns d1 = columns d2 -> category_test d1 loc r = category_test d2 loc r.
Proof.
  intro H. unfold category_test, has_column. now rewrite H.
Qed.

(** X3. Filtering is idempotent: running the filter with the same criteria
    on its own output returns that output. *)
Theorem filter_idempotent (data : DataFrame) (income_level : string)
    (price_range : Z * Z) (location_types : list string) :
  filtered_data
    (filtered_data data income_level price_range location_types)
    income_level price_range location_types
  = filtered_data data income_level price_range location_types.
Proof.
  apply frame_eq.
  - now rewrite !filtered_data_columns.
  - rewrite (filtered_data_rows (filtered_data _ _ _ _)).
    rewrite !filter_all; [reflexivity| | |].
    + intros r Hr. apply filtered_data_In in Hr. tauto.
    + intros r Hr. apply filter_In in Hr. destruct Hr as [Hr _].
      apply filtered_data_In in Hr. tauto.
    + intros r Hr. apply filter_In in Hr. destruct Hr as [Hr _].
      apply filter_In in Hr. destruct Hr as [Hr _].
      apply filtered_data_In in Hr.
      rewrite (category_test_columns _ data);
        [tauto | apply filtered_data_columns].
Qed.

Lemma income_test_not_nan (lvl : string) (x : float64) :
  income_test lvl x = true -> x <> NaN.
Proof. intros H E. subst. now rewrite income_test_nan in H. Qed.

Lemma price_test_not_nan (pr : Z * Z) (x : float64) :
  price_test pr x = true -> x <> NaN.
Proof.
  intros H. apply price_test_spec in H. destruct H as [H _].
  now apply Le_not_nan in H.
Qed.

(** X4. Widening the criteria never loses a row: with a lower minimum, a
    higher maximum and a larger selection of categories, the old output is
    an order-preserving sub-sequence of the new one, provided the old
    selection was not empty (an empty selection filters nothing). *)
Theorem filter_monotone (data : DataFrame) (income_level : string)
    (lo hi lo' hi' : Z) (loc loc' : list string) :
  (lo' <= lo)%Z -> (hi <= hi')%Z ->
  loc <> [] -> (forall c, In c loc -> In c loc') ->
  Subseq (rows (filtered_data data income_level (lo, hi) loc))
         (rows (filtered_data data income_level (lo', hi') loc')).
Proof.
  intros Hlo Hhi Hne Hincl.
  rewrite !filtered_data_rows.
  set (l := filter _ (rows data)).
  eapply Subseq_trans.
  - apply filter_mono_Subseq with (q := category_test data loc').
    intros r _ H. apply category_test_spec.
    apply category_test_spec in H. intros [Hc Hn]. apply Hincl, H.
    now split.
  - assert (Hp : Subseq
        (filter (fun r => price_test (lo, hi) (median_house_value r)) l)
        (filter (fun r => price_test (lo', hi') (median_house_value r)) l)).
    { apply filter_mono_Subseq. intros r _ H.
      apply price_test_spec. apply price_test_spec in H.
      destruct H as [H1 H2]. simpl in *. split.
      - eapply Le_trans; [|exact H1]. now apply Le_of_int.
      - eapply Le_trans; [exact H2|]. now apply Le_of_int. }
    clear -Hp. induction Hp as [|x l1 l2 _ IH|x l1 l2 _ IH]; simpl.
    + constructor.
    + destruct (category_test data loc' x); [now constructor | exact IH].
    + destruct (category_test data loc' x); [now constructor | exact IH].
Qed.

Lemma filter_monotone_witness :
  Subseq
    (rows (filtered_data example_data opt_low (100000, 200000)%Z ["INLAND"]))
    (rows (filtered_data example_data opt_low (0, 300000)%Z
             ["INLAND"; "NEAR BAY"])).
Proof.
  apply (filter_monotone example_data opt_low
           100000 200000 0 300000 ["INLAND"] ["INLAND"; "NEAR BAY"]).
  - lia.
  - lia.
  - discriminate.
  - simpl. tauto.
Defined.

(** X5. A row whose income or house value is missing (NaN) is never shown,
    whatever the criteria. *)
Theorem filter_drops_nan (data : DataFrame) (income_level : string)
    (price_range : Z * Z) (location_types : list string) :
  Forall (fun r => isna (median_income r) = false /\
                   isna (median_house_value r) = false)
         (rows (filtered_data data income_level price_range location_types)).
Proof.
  apply Forall_forall. intros r Hr. apply filtered_data_In in Hr.
  destruct Hr as [_ [Hi [Hp _]]]. split; apply isna_false.
  - eapply income_test_not_nan; eauto.
  - eapply price_test_not_nan; eauto.
Qed.

Lemma income_tests_exactly_one (x : float64) :
  x <> NaN ->
  exactly_one (income_test opt_low x) (income_test opt_medium x)
              (income_test opt_high x) = true.
Proof.
  intro Hx. destruct x as [| |q|]; try reflexivity; [congruence|].
  change (exactly_one (Fin q <=? lit_2_5)%f64
            ((Fin q >? lit_2_5)%f64 && (Fin q <? lit_4_5)%f64)
            (Fin q >=? lit_4_5)%f64 = true).
  unfold lit_2_5, lit_4_5, Float64.gt, Float64.ge.
  cbn [Float64.le Float64.lt].
  rewrite <- (Qcompare_antisym q (5 # 2)), <- (Qcompare_antisym q (9 # 2)).
  destruct (q ?= 5 # 2)%Q eqn:E1, (q ?= 9 # 2)%Q eqn:E2; try reflexivity;
    exfalso.
  - apply Qeq_alt in E1, E2. rewrite E1 in E2. discriminate E2.
  - apply Qeq_alt in E1. apply Qgt_alt in E2. rewrite E1 in E2.
    discriminate E2.
  - apply Qlt_alt in E1. apply Qeq_alt in E2. rewrite E2 in E1.
    discriminate E1.
  - pose proof (proj2 (Qlt_alt _ _) E1). pose proof (proj2 (Qgt_alt _ _) E2).
    assert (H1 : (9 # 2 < 5 # 2)%Q) by (eapply Qlt_trans; eauto).
    discriminate H1.
Qed.

(** X6. The three income options split the dataset: the numbers of rows
    kept under Low, Medium and High add up to the number of rows whose
    income is not missing, and no row is kept under two options. *)
Theorem income_buckets_split_rows (data : DataFrame) :
  (List.length (rows (income_step data opt_low))
   + List.length (rows (income_step data opt_medium))
   + List.length (rows (income_step data opt_high))
   = List.length (filter (fun r => negb (isna (median_income r)))
                         (rows data)))%nat /\
  (forall r : Row,
     ~ (In r (rows (income_step data opt_low)) /\
        In r (rows (income_step data opt_medium))) /\
     ~ (In r (rows (income_step data opt_low)) /\
        In r (rows (income_step data opt_high))) /\
     ~ (In r (rows (income_step data opt_medium)) /\
        In r (rows (income_step data opt_high)))).
Proof.
  rewrite !income_step_rows. split.
  - induction (rows data) as [|r l IH]; [reflexivity|].
    cbn [filter]. destruct (median_income r) eqn:Ex.
    + rewrite !income_test_nan. exact IH.
    + cbn. cbn in IH. lia.
    + assert (H := income_tests_exactly_one (Fin q) ltac:(discriminate)).
      unfold exactly_one in H.
      destruct (income_test opt_low (Fin q)),
               (income_test opt_medium (Fin q)),
               (income_test opt_high (Fin q));
        try discriminate H; cbn [negb isna List.length]; lia.
    + cbn. cbn in IH. lia.
  - intro r.
    assert (H : median_income r <> NaN ->
                exactly_one (income_test opt_low (median_income r))
                  (income_test opt_medium (median_income r))
                  (income_test opt_high (median_income r)) = true)
      by apply income_tests_exactly_one.
    repeat split; intros [H1 H2];
      apply filter_In in H1; apply filter_In in H2;
      destruct H1 as [_ H1], H2 as [_ H2];
      specialize (H (income_test_not_nan _ _ H1));
      unfold exactly_one in H; rewrite H1, H2 in H;
      destruct (income_test _ _); discriminate H.
Qed.

Lemma Subseq_same_length (A : Type) (l1 l2 : list A) :
  Subseq l1 l2 -> List.length l1 = List.length l2 -> l1 = l2.
Proof.
  induction 1 as [|x l1 l2 _ IH|x l1 l2 H _]; simpl; intro E.
  - reflexivity.
  - f_equal. apply IH. lia.
  - apply Subseq_length in H. lia.
Qed.

(** X7. The two counts of line 95: the filtered frame never has more rows
    than the dataset, and the counts are equal exactly when the filter
    removed no row. *)
Theorem filtered_count_bounded (data : DataFrame) (income_level : string)
    (price_range : Z * Z) (location_types : list string) :
  (List.length
     (rows (filtered_data data income_level price_range location_types))
   <= List.length (rows data))%nat /\
  (List.length
     (rows (filtered_data data income_level price_range location_types))
   = List.length (rows data)
   <-> filtered_data data income_level price_range location_types = data).
Proof.
  assert (H : Subseq
    (rows (filtered_data data income_level price_range location_types))
    (rows data)).
  { rewrite filtered_data_rows. eauto 6 with frames. }
  split; [now apply Subseq_length|]. split.
  - intro E. apply frame_eq; [apply filtered_data_columns|].
    now apply Subseq_same_length.
  - intro E. now rewrite E.
Qed.

(** X9. On a dataset without the column [ocean_proximity] the selection of
    location types has no effect: the filter returns what the income and
    price steps leave, whatever is selected. *)
Theorem missing_column_ignores_selection (data : DataFrame)
    (income_level : string) (price_range : Z * Z)
    (location_types : list string) :
  ~ In "ocean_proximity" (columns data) ->
  filtered_data data income_level price_range location_types
  = price_step (income_step data income_level) price_range.
Proof.
  intro H. unfold filtered_data, category_step.
  destruct (has_column "ocean_proximity" data) eqn:E; [|reflexivity].
  apply has_column_spec in E. contradiction.
Qed.

Lemma missing_column_ignores_selection_witness :
  filtered_data fractional_data opt_medium (0, 1000000)%Z ["Coastal"]
  = price_step (income_step fractional_data opt_medium) (0, 1000000)%Z.
Proof.
  apply (missing_column_ignores_selection fractional_data opt_medium
           (0, 1000000)%Z ["Coastal"]).
  simpl. intros [H|[H|[]]]; discriminate H.
Defined.

(** * The sidebar defaults *)

Lemma le_false_Le (x y : float64) :
  x <> NaN -> y <> NaN -> Float64.le x y = false -> Le y x.
Proof.
  intros Hx Hy H.
  destruct x as [| |a|], y as [| |b|]; try congruence;
    cbn [Float64.le] in H; try discriminate H;
    try (constructor; discriminate).
  apply Le_fin. destruct (a ?= b)%Q eqn:E; try discriminate H.
  apply Qlt_le_weak. now apply Qgt_alt in E.
Qed.

Lemma Le_refl (x : float64) : x <> NaN -> Le x x.
Proof.
  destruct x; intro H; try congruence.
  - now apply Le_neginf.
  - apply Le_refl_fin.
  - now apply Le_posinf.
Qed.

Lemma series_min_cases (l : list float64) :
  (series_min l = NaN /\ forall x, In x l -> x = NaN) \/
  (series_min l <> NaN /\ In (series_min l) l /\
   forall x, In x l -> x <> NaN -> Le (series_min l) x).
Proof.
  induction l as [|x l IH]; [left; split; [reflexivity | intros ? []]|].
  cbn [series_min]. destruct (isna x) eqn:Ex.
  - destruct x; try discriminate Ex.
    destruct IH as [[Hm Hall]|[Hm [Hin Hle]]]; [left | right].
    + split; [exact Hm|]. intros y [<-|Hy]; auto.
    + split; [exact Hm|]. split; [now right|].
      intros y [<-|Hy] Hn; [congruence | auto].
  - apply isna_false in Ex. right.
    destruct IH as [[Hm Hall]|[Hm [Hin Hle]]].
    + rewrite Hm. cbn [isna]. split; [exact Ex|]. split; [now left|].
      intros y [<-|Hy] Hn; [now apply Le_refl|].
      apply Hall in Hy. congruence.
    + destruct (isna (series_min l)) eqn:Em;
        [apply isna_false in Hm; congruence|].
      destruct (x <=? series_min l)%f64 eqn:Ec.
      * apply le_spec in Ec. split; [exact Ex|]. split; [now left|].
        intros y [<-|Hy] Hn; [now apply Le_refl|].
        eapply Le_trans; [exact Ec | auto].
      * apply le_false_Le in Ec; try assumption.
        split; [exact Hm|]. split; [now right|].
        intros y [<-|Hy] Hn; [exact Ec | auto].
Qed.

Lemma series_max_cases (l : list float64) :
  (series_max l = NaN /\ forall x, In x l -> x = NaN) \/
  (series_max l <> NaN /\ In (series_max l) l /\
   forall x, In x l -> x <> NaN -> Le x (series_max l)).
Proof.
  induction l as [|x l IH]; [left; split; [reflexivity | intros ? []]|].
  cbn [series_max]. destruct (isna x) eqn:Ex.
  - destruct x; try discriminate Ex.
    destruct IH as [[Hm Hall]|[Hm [Hin Hle]]]; [left | right].
    + split; [exact Hm|]. intros y [<-|Hy]; auto.
    + split; [exact Hm|]. split; [now right|].
      intros y [<-|Hy] Hn; [congruence | auto].
  - apply isna_false in Ex. right.
    destruct IH as [[Hm Hall]|[Hm [Hin Hle]]].
    + rewrite Hm. cbn [isna]. split; [exact Ex|]. split; [now left|].
      intros y [<-|Hy] Hn; [now apply Le_refl|].
      apply Hall in Hy. congruence.
    + destruct (isna (series_max l)) eqn:Em;
        [apply isna_false in Hm; congruence|].
      unfold Float64.ge.
      destruct (series_max l <=? x)%f64 eqn:Ec.
      * apply le_spec in Ec. split; [exact Ex|]. split; [now left|].
        intros y [<-|Hy] Hn; [now apply Le_refl|].
        eapply Le_trans; [|exact Ec]. auto.
      * apply le_false_Le in Ec; try assumption.
        split; [exact Hm|]. split; [now right|].
        intros y [<-|Hy] Hn; [exact Ec | auto].
Qed.

Lemma of_int_inj (a b : Z) : of_int a = of_int b -> a = b.
Proof. unfold of_int, inject_Z. now intros [= H]. Qed.

Lemma py_int_of_int (z : Z) : py_int (of_int z) = inr z.
Proof. unfold py_int, of_int, inject_Z. simpl. now rewrite Z.quot_1_r. Qed.

(** X10. On a dataset with no priced row (an empty dataset, or one whose
    house values are all missing) computing the bounds of the price slider
    raises ValueError: the minimum is NaN and [int] rejects it. *)
Theorem default_price_range_no_prices (data : DataFrame) :
  (forall r, In r (rows data) -> median_house_value r = NaN) ->
  default_price_range data = inl ValueError.
Proof.
  intro H. unfold default_price_range.
  destruct (series_min_cases (map median_house_value (rows data)))
    as [[Hm _]|[Hm [Hin _]]].
  - now rewrite Hm.
  - apply in_map_iff in Hin. destruct Hin as [r [Hr Hin]].
    apply H in Hin. congruence.
Qed.

Lemma default_price_range_no_prices_witness :
  default_price_range (mkFrame ["median_house_value"] []) = inl ValueError.
Proof.
  apply (default_price_range_no_prices (mkFrame ["median_house_value"] [])).
  intros r [].
Defined.

Lemma price_slider_inr (a b lo hi : Z) :
  price_slider a b = inr (lo, hi) ->
  a = lo /\ b = hi /\ (lo < hi)%Z /\
  js_safe_int lo = true /\ js_safe_int hi = true.
Proof.
  unfold price_slider.
  destruct (js_safe_int a) eqn:Ea; [|discriminate].
  destruct (js_safe_int b) eqn:Eb; [|discriminate].
  cbn [andb]. destruct (a <? b)%Z eqn:Elt; [|discriminate].
  intros [= <- <-]. apply Z.ltb_lt in Elt. auto.
Qed.

(** The extremes of a non-empty column of whole numbers. *)
Lemma default_price_range_integers (data : DataFrame) :
  rows data <> [] ->
  (forall r, In r (rows data) -> exists z, median_house_value r = of_int z) ->
  exists lo hi : Z,
    default_price_range data = price_slider lo hi /\
    (exists r, In r (rows data) /\ median_house_value r = of_int lo) /\
    (exists r, In r (rows data) /\ median_house_value r = of_int hi) /\
    (forall r, In r (rows data) ->
       price_test (lo, hi) (median_house_value r) = true).
Proof.
  intros Hne Hint. unfold default_price_range.
  assert (Hsome : exists r0, In r0 (rows data)).
  { destruct (rows data) as [|r0 l]; [congruence | exists r0; now left]. }
  destruct Hsome as [r0 Hr0].
  destruct (Hint r0 Hr0) as [z0 Hz0].
  assert (Hin0 : In (of_int z0) (map median_house_value (rows data))).
  { rewrite <- Hz0. now apply in_map. }
  destruct (series_min_cases (map median_house_value (rows data)))
    as [[_ Hall]|[_ [Hmin Hle]]];
    [apply Hall in Hin0; discriminate Hin0|].
  destruct (series_max_cases (map median_house_value (rows data)))
    as [[_ Hall]|[_ [Hmax Hge]]];
    [apply Hall in Hin0; discriminate Hin0|].
  apply in_map_iff in Hmin. destruct Hmin as [rlo [Elo Hrlo]].
  apply in_map_iff in Hmax. destruct Hmax as [rhi [Ehi Hrhi]].
  destruct (Hint rlo Hrlo) as [lo Hlo]. destruct (Hint rhi Hrhi) as [hi Hhi].
  rewrite <- Elo, <- Ehi in *. rewrite Hlo, Hhi in *.
  rewrite !py_int_of_int. exists lo, hi.
  split; [reflexivity|].
  split; [exists rlo; now split|]. split; [exists rhi; now split|].
  intros r Hr. destruct (Hint r Hr) as [z Hz].
  apply price_test_spec. unfold in_price_range. cbn [fst snd]. split.
  - apply Hle; [now apply in_map | rewrite Hz; discriminate].
  - apply Hge; [now apply in_map | rewrite Hz; discriminate].
Qed.

(** X11. When the dataset is not empty and every house value is a whole
    number within the slider's safe range, the bounds of the price slider
    are the smallest and the largest house value of the dataset.  If they
    differ, the default price range is this pair and the price step
    filters nothing, on the dataset and after any income step; if all
    house values are equal, the slider call raises
    StreamlitAPIException and the script stops at line 51. *)
Theorem default_price_range_keeps_all (data : DataFrame) :
  rows data <> [] ->
  (forall r, In r (rows data) ->
     exists z, median_house_value r = of_int z /\ js_safe_int z = true) ->
  exists lo hi : Z,
    (lo <= hi)%Z /\
    (exists r, In r (rows data) /\ median_house_value r = of_int lo) /\
    (exists r, In r (rows data) /\ median_house_value r = of_int hi) /\
    (forall r, In r (rows data) ->
       Le (of_int lo) (median_house_value r) /\
       Le (median_house_value r) (of_int hi)) /\
    ((lo < hi)%Z ->
     default_price_range data = inr (lo, hi) /\
     price_step data (lo, hi) = data /\
     (forall income_level : string,
        price_step (income_step data income_level) (lo, hi)
        = income_step data income_level)) /\
    (lo = hi -> default_price_range data = inl StreamlitAPIException).
Proof.
  intros Hne Hint.
  assert (Hint' : forall r, In r (rows data) ->
                    exists z, median_house_value r = of_int z).
  { intros r Hr. destruct (Hint r Hr) as [z [Hz _]]. now exists z. }
  destruct (default_price_range_integers data Hne Hint')
    as [lo [hi [Hd [Hlo [Hhi Hall]]]]].
  assert (Hsafe : js_safe_int lo = true /\ js_safe_int hi = true).
  { destruct Hlo as [r1 [Hr1 Hv1]], Hhi as [r2 [Hr2 Hv2]].
    destruct (Hint r1 Hr1) as [z1 [Hz1 Hs1]].
    destruct (Hint r2 Hr2) as [z2 [Hz2 Hs2]].
    rewrite Hv1 in Hz1. rewrite Hv2 in Hz2.
    apply of_int_inj in Hz1, Hz2. subst. now split. }
  destruct Hsafe as [Hslo Hshi].
  exists lo, hi.
  split.
  { destruct Hlo as [r [Hr Hv]]. specialize (Hall r Hr).
    apply price_test_spec in Hall. destruct Hall as [_ H].
    rewrite Hv in H. now apply Le_of_int in H. }
  split; [exact Hlo|]. split; [exact Hhi|].
  split.
  { intros r Hr. specialize (Hall r Hr).
    now apply price_test_spec in Hall. }
  split.
  - intro Hlt. split.
    + rewrite Hd. unfold price_slider. rewrite Hslo, Hshi. cbn [andb].
      apply Z.ltb_lt in Hlt. now rewrite Hlt.
    + split.
      * apply frame_eq; [reflexivity|].
        rewrite price_step_rows. now apply filter_all.
      * intro lvl. apply frame_eq; [reflexivity|].
        rewrite price_step_rows. apply filter_all. intros r Hr.
        apply Hall. rewrite income_step_rows in Hr.
        now apply filter_In in Hr.
  - intro Heq. rewrite Hd. unfold price_slider.
    rewrite Hslo, Hshi. cbn [andb]. subst hi.
    now rewrite Z.ltb_irrefl.
Qed.

(** The example dataset (prices 100000, 200000, 300000), and a dataset
    whose only price is 100000. *)
Lemma default_price_range_keeps_all_witness :
  default_price_range example_data = inr (100000, 300000)%Z /\
  price_step example_data (100000, 300000)%Z = example_data /\
  default_price_range
    (mkFrame ["median_house_value"] [example_row 2 100000 "INLAND"])
  = inl StreamlitAPIException /\
  exists lo hi : Z,
    (lo <= hi)%Z /\
    (exists r, In r (rows example_data) /\ median_house_value r = of_int lo) /\
    (exists r, In r (rows example_data) /\ median_house_value r = of_int hi) /\
    (forall r, In r (rows example_data) ->
       Le (of_int lo) (median_house_value r) /\
       Le (median_house_value r) (of_int hi)) /\
    ((lo < hi)%Z ->
     default_price_range example_data = inr (lo, hi) /\
     price_step example_data (lo, hi) = example_data /\
     (forall income_level : string,
        price_step (income_step example_data income_level) (lo, hi)
        = income_step example_data income_level)) /\
    (lo = hi -> default_price_range example_data = inl StreamlitAPIException).
Proof.
  split; [reflexivity|]. split; [reflexivity|]. split; [reflexivity|].
  apply (default_price_range_keeps_all example_data).
  - discriminate.
  - intros r [<-|[<-|[<-|[]]]]; eexists; split; reflexivity.
Defined.

(** X12. With fractional prices the default range can hide rows: when the
    highest house value of the dataset is non-negative and not a whole
    number, [int] rounds the upper bound of the slider down below it, and
    the price step drops every row that carries this highest value even
    though the slider is at its default. *)
Theorem default_price_range_hides_fractional_max (data : DataFrame)
    (lo hi : Z) (r : Row) (q : Q) :
  default_price_range data = inr (lo, hi) ->
  In r (rows data) -> median_house_value r = Fin q ->
  (forall r', In r' (rows data) -> median_house_value r' <> NaN ->
     Le (median_house_value r') (Fin q)) ->
  (0 <= q)%Q -> (forall z : Z, ~ (q == inject_Z z)%Q) ->
  ~ In r (rows (price_step data (lo, hi))).
Proof.
  intros Hd Hr Hv Hmax Hpos Hfrac Hin.
  rewrite price_step_rows in Hin. apply filter_In in Hin.
  destruct Hin as [_ Hp]. apply price_test_spec in Hp.
  destruct Hp as [_ Hp]. cbn [snd] in Hp. rewrite Hv in Hp.
  inversion Hp as [? ? Hqhi| |]; subst. clear Hp.
  unfold default_price_range in Hd.
  destruct (py_int (series_min _)) as [e|lo0]; [discriminate Hd|].
  destruct (series_max_cases (map median_house_value (rows data)))
    as [[_ Hall]|[Hn [HM Hge]]].
  { specialize (Hall (Fin q)). rewrite <- Hv in Hall.
    specialize (Hall (in_map _ _ _ Hr)). congruence. }
  assert (H1 : Le (Fin q) (series_max (map median_house_value (rows data)))).
  { apply Hge; [rewrite <- Hv; now apply in_map | discriminate]. }
  assert (H2 : Le (series_max (map median_house_value (rows data))) (Fin q)).
  { apply in_map_iff in HM. destruct HM as [r' [E Hr']].
    rewrite <- E. apply Hmax; [exact Hr' | now rewrite E]. }
  destruct (series_max (map median_house_value (rows data)))
    as [| |q'|]; try (inversion H1; fail); try (inversion H2; fail).
  inversion H1 as [? ? Hqq'| |]; inversion H2 as [? ? Hq'q| |]; subst.
  cbn [py_int] in Hd. apply price_slider_inr in Hd.
  destruct Hd as [_ [Ehi _]].
  apply (Hfrac hi).
  assert (Hq'hi : (q' <= inject_Z hi)%Q) by (eapply Qle_trans; eauto).
  assert (Hq'pos : (0 <= q')%Q) by (eapply Qle_trans; eauto).
  assert (E : (q' == inject_Z hi)%Q).
  { destruct q' as [n d]. unfold Qle, Qeq in *. cbn in *.
    rewrite Z.quot_div_nonneg in Ehi by lia.
    pose proof (Z.mul_div_le n (Z.pos d) ltac:(lia)). nia. }
  apply Qle_antisym.
  - exact Hqhi.
  - rewrite <- E. exact Hq'q.
Qed.

(** Prices 100000 and 200000.5: the slider runs from 100000 to 200000 and
    the default range keeps the first row only. *)
Lemma default_price_range_hides_fractional_max_witness :
  default_price_range fractional_prices_data = inr (100000, 200000)%Z /\
  rows (price_step fractional_prices_data (100000, 200000)%Z)
  = [mkRow (Fin 0) (Fin 0) 0 0 0 0 0 (Fin 3) (of_int 100000) "INLAND"] /\
  ~ In (mkRow (Fin 0) (Fin 0) 0 0 0 0 0 (Fin 3) (Fin (400001 # 2)) "INLAND")
       (rows (price_step fractional_prices_data (100000, 200000)%Z)).
Proof.
  split; [reflexivity|]. split; [reflexivity|].
  apply (default_price_range_hides_fractional_max fractional_prices_data
           100000 200000 _ (400001 # 2)).
  - reflexivity.
  - simpl. auto.
  - reflexivity.
  - intros r' [<-|[<-|[]]] _; apply Le_fin; unfold Qle; simpl; lia.
  - discriminate.
  - intros z H. unfold Qeq in H. simpl in H. lia.
Defined.

(** * The location options *)

Lemma isin_ext (l1 l2 : list string) (x : string) :
  (forall y, In y l1 <-> In y l2) -> isin l1 x = isin l2 x.
Proof.
  intro H. destruct (isin l1 x) eqn:E1, (isin l2 x) eqn:E2;
    try reflexivity.
  - apply isin_spec, H, isin_spec in E1. congruence.
  - apply isin_spec, H, isin_spec in E2. congruence.
Qed.

Lemma unique_from_In (seen l : list string) (x : string) :
  In x (unique_from seen l) <-> In x l /\ ~ In x seen.
Proof.
  revert seen. induction l as [|a l IH]; intro seen; cbn [unique_from].
  - simpl. tauto.
  - destruct (isin seen a) eqn:E.
    + apply isin_spec in E. rewrite IH. simpl. split.
      * tauto.
      * intros [[<-|H] Hn]; [contradiction | tauto].
    + assert (Hna : ~ In a seen).
      { intro H. apply isin_spec in H. congruence. }
      simpl. rewrite IH. simpl. split.
      * intros [<-|[H Hn]]; tauto.
      * intros [[<-|H] Hn]; [now left|].
        destruct (string_dec a x) as [<-|Hne]; [now left|]. right. tauto.
Qed.

Lemma unique_from_NoDup (seen l : list string) : NoDup (unique_from seen l).
Proof.
  revert seen. induction l as [|a l IH]; intro seen; cbn [unique_from].
  - constructor.
  - destruct (isin seen a); [apply IH|].
    constructor; [|apply IH].
    rewrite unique_from_In. simpl. tauto.
Qed.

Lemma unique_from_Subseq (seen l : list string) :
  Subseq (unique_from seen l) l.
Proof.
  revert seen. induction l as [|a l IH]; intro seen; cbn [unique_from].
  - constructor.
  - destruct (isin seen a); constructor; apply IH.
Qed.

(** A label at the end of the column is a new option exactly when it has
    not been met before, and then it comes last. *)
Lemma unique_from_snoc (seen l : list string) (x : string) :
  unique_from seen (l ++ [x])
  = if isin (seen ++ l) x then unique_from seen l
    else (unique_from seen l ++ [x])%list.
Proof.
  revert seen. induction l as [|a l IH]; intro seen.
  - cbn [app unique_from]. rewrite app_nil_r.
    destruct (isin seen x); reflexivity.
  - cbn [app unique_from]. destruct (isin seen a) eqn:E.
    + rewrite IH. apply isin_spec in E.
      rewrite (isin_ext (seen ++ l) (seen ++ a :: l) x); [reflexivity|].
      intro y. rewrite !in_app_iff. simpl. split; [tauto|].
      intros [H|[<-|H]]; tauto.
    + rewrite IH.
      rewrite (isin_ext ((a :: seen) ++ l) (seen ++ a :: l) x).
      * destruct (isin (seen ++ a :: l) x); reflexivity.
      * intro y. simpl. rewrite !in_app_iff. simpl. tauto.
Qed.

(** X13. The location options list every label once, in order of first
    appearance: on a dataset with the column they are the labels that
    occur in it, without repetition; an empty dataset has no option, and a
    row added at the end of the dataset adds its label at the end of the
    options if the label is new and changes nothing otherwise.  Without
    the column the options are the four fallback labels. *)
Theorem location_options_distinct (data : DataFrame) :
  NoDup (location_options data) /\
  if has_column "ocean_proximity" data
  then (forall c : string,
          In c (location_options data)
          <-> exists r, In r (rows data) /\ ocean_proximity r = c) /\
       Subseq (location_options data) (map ocean_proximity (rows data)) /\
       location_options (mkFrame (columns data) []) = [] /\
       (forall r : Row,
          location_options (mkFrame (columns data) (rows data ++ [r]))
          = if isin (map ocean_proximity (rows data)) (ocean_proximity r)
            then location_options data
            else (location_options data ++ [ocean_proximity r])%list)
  else location_options data = ["Coastal"; "Inland"; "Urban"; "Rural"].
Proof.
  unfold location_options.
  replace (has_column "ocean_proximity" (mkFrame (columns data) []))
    with (has_column "ocean_proximity" data) by reflexivity.
  destruct (has_column "ocean_proximity" data) eqn:Ec.
  - split; [apply unique_from_NoDup|]. split.
    { intro c. unfold unique. rewrite unique_from_In, in_map_iff.
      split.
      - intros [[r [E Hr]] _]. exists r. tauto.
      - intros [r [Hr E]]. split; [exists r; tauto | intros []]. }
    split; [apply unique_from_Subseq|].
    split; [reflexivity|].
    intro r.
    replace (has_column "ocean_proximity"
               (mkFrame (columns data) (rows data ++ [r])))
      with true by (symmetry; exact Ec).
    cbn [rows]. unfold unique. rewrite map_app. cbn [map].
    apply (unique_from_snoc [] (map ocean_proximity (rows data))).
  - split; [|reflexivity].
    repeat constructor; simpl; intuition discriminate.
Qed.

Lemma category_step_all_options (data fd : DataFrame) :
  (forall r, In r (rows fd) -> In r (rows data)) ->
  category_step data fd (location_options data) = fd.
Proof.
  intro Hsub. unfold category_step, location_options.
  destruct (has_column "ocean_proximity" data); [|reflexivity].
  cbn [andb]. destruct (truthy _); [|reflexivity].
  apply frame_eq; [reflexivity|].
  unfold getitem_mask, col_isin. cbn [rows].
  rewrite select_rows_map. apply filter_all. intros r Hr.
  apply isin_spec. unfold unique. rewrite unique_from_In.
  split; [apply in_map; auto | intros []].
Qed.

(** X14. With the default selection, all location options, the category
    step filters nothing: the filter returns what the income and price
    steps leave, on a dataset with or without the column. *)
Theorem default_selection_keeps_all (data : DataFrame) (income_level : string)
    (price_range : Z * Z) :
  filtered_data data income_level price_range (location_options data)
  = price_step (income_step data income_level) price_range.
Proof.
  unfold filtered_data. apply category_step_all_options.
  intros r Hr. rewrite price_step_rows, income_step_rows in Hr.
  apply filter_In in Hr. destruct Hr as [Hr _].
  now apply filter_In in Hr.
Qed.

(** * The sample table *)

Lemma has_column_head (label : string) (n : nat) (fd : DataFrame) :
  has_column label (head n fd) = has_column label fd.
Proof. reflexivity. Qed.

(** X15. The sample table shows at most ten rows, the first rows of the
    filtered frame, under four to six distinct column labels; building it
    succeeds exactly when the frame has the columns [median_income],
    [median_house_value], [longitude] and [latitude] (a KeyError
    otherwise), whether or not the two optional columns are present. *)
Theorem sample_table_shape (fd : DataFrame) :
  NoDup (display_columns fd) /\
  (4 <= List.length (display_columns fd) <= 6)%nat /\
  sample_table fd
  = (if has_column "median_income" fd && has_column "median_house_value" fd
        && has_column "longitude" fd && has_column "latitude" fd
     then inr (mkFrame (display_columns fd) (firstn 10 (rows fd)))
     else inl (OtherError "KeyError")) /\
  (List.length (firstn 10 (rows fd)) <= 10)%nat /\
  (forall c : string,
     In c (display_columns fd) ->
     In c ["median_income"; "median_house_value"; "longitude"; "latitude"] \/
     In c (columns fd)).
Proof.
  unfold sample_table, getitem_columns. unfold display_columns.
  destruct (has_column "housing_median_age" fd) eqn:Ea;
    destruct (has_column "ocean_proximity" fd) eqn:Eo;
    cbn [app forallb List.length]; rewrite !has_column_head, ?Ea, ?Eo;
    (split; [repeat constructor; simpl; intuition discriminate|]);
    (split; [lia|]);
    (split;
      [destruct (has_column "median_income" fd),
                (has_column "median_house_value" fd),
                (has_column "longitude" fd), (has_column "latitude" fd);
       reflexivity|]);
    (split; [apply firstn_le_length|]);
    intros c Hc; simpl in Hc;
    apply has_column_spec in Ea || idtac;
    apply has_column_spec in Eo || idtac;
    repeat (destruct Hc as [<-|Hc]; [simpl; tauto|]); destruct Hc.
Qed.

(** * The defaults on the synthetic dataset *)

Lemma price_step_all (fd : DataFrame) (pr : Z * Z) :
  (forall r, In r (rows fd) -> price_test pr (median_house_value r) = true) ->
  price_step fd pr = fd.
Proof.
  intro H. apply frame_eq; [reflexivity|].
  rewrite price_step_rows. now apply filter_all.
Qed.

(** The sidebar defaults on the frame of seed 42, evaluated. *)
Lemma seed42_defaults_facts :
  seed42_defaults_check (synthetic_data numpy_world) = true.
Proof. vm_compute. reflexivity. Qed.

(** X16. On the synthetic dataset the sidebar defaults show every row of
    the chosen income bucket: the price slider runs from 15370 to 499710,
    the smallest and largest generated house value, the location options
    are the four generated labels in order of first appearance, and the
    filter with this default range and the default selection returns
    exactly what the income step keeps. *)
Theorem synthetic_defaults_keep_all :
  exists df : DataFrame,
    (forall w : @World numpy_mt19937, fst (synthetic_data w) = inr df) /\
    default_price_range df = inr (15370, 499710)%Z /\
    location_options df = ["INLAND"; "ISLAND"; "NEAR BAY"; "NEAR OCEAN"] /\
    forall income_level : string,
      filtered_data df income_level (15370, 499710)%Z (location_options df)
      = income_step df income_level.
Proof.
  destruct (@synthetic_data_any_world numpy_mt19937) as [r [s Hall]].
  pose proof seed42_defaults_facts as Hc. rewrite (Hall numpy_world) in Hc.
  unfold seed42_defaults_check in Hc. cbn [fst] in Hc.
  destruct r as [e|df]; [discriminate Hc|].
  apply andb_true_iff in Hc. destruct Hc as [Hp Hloc].
  destruct (default_price_range df) as [e|[lo hi]] eqn:Ed;
    [discriminate Hp|].
  rewrite !andb_true_iff in Hp. destruct Hp as [[Hlo Hhi] Hrows].
  apply Z.eqb_eq in Hlo, Hhi. subst lo hi.
  rewrite forallb_forall in Hrows.
  exists df. split; [intro w; now rewrite Hall|].
  split; [exact Ed|].
  split; [now apply list_eqb_eq|].
  intro lvl. unfold filtered_data.
  rewrite price_step_all.
  - apply category_step_all_options. intros x Hx.
    rewrite income_step_rows in Hx. now apply filter_In in Hx.
  - intros x Hx. apply Hrows. rewrite income_step_rows in Hx.
    now apply filter_In in Hx.
Qed.
